(** * Calculations API: arithmetic engine, record updates and statistics

    A shallow embedding of the Python sources

    - [app/operations/calc_utils.py]  ([compute_result]),
    - [app/operations/statistics.py]  (user summary, paginated history,
      per-operation summary),
    - [app/main.py] and the patched excerpt holding the updated PUT route
      (single-record read, update and delete),

    together with the properties of the specification that concern them.

    Modelling conventions.
    - Python [str] values are [string]s; [str.lower] is the ASCII case
      mapping (the four operation tags are ASCII).
    - Python numbers are exact rationals ([Qc], canonical fractions, so that
      Leibniz equality is numeric equality).  IEEE rounding of [float] is not
      modelled.
    - A raised [ValueError] is the [Err] branch of [outcome]; the exception
      carries its message, as in the source.
    - The SQL table of calculations is a list of rows in table order;
      [filter] is [List.filter], [.all()] the filtered list, [.first()] its
      head, [.count()] its length.
    - Timestamps are integers (microseconds); the clock is an argument. *)

From Stdlib Require Import List String Ascii Bool Arith ZArith Lia Lqa.
From Stdlib Require Import QArith Qcanon Qround.
From Stdlib Require Import Permutation Sorted.
Import ListNotations.

Local Open Scope string_scope.
Local Open Scope list_scope.

(** ** Exceptions as values *)

Inductive exn : Type :=
| ValueError (msg : string).

Inductive outcome (A : Type) : Type :=
| Ok (a : A)
| Err (e : exn).

Arguments Ok {A} a.
Arguments Err {A} e.

Definition bind {A B : Type} (r : outcome A) (k : A -> outcome B) : outcome B :=
  match r with
  | Ok a => k a
  | Err e => Err e
  end.

Notation "x <- r ;; k" := (bind r (fun x => k))
  (at level 61, r at next level, right associativity).

Definition raise {A : Type} (e : exn) : outcome A := Err e.

Definition fails {A : Type} (r : outcome A) : Prop :=
  exists e, r = Err e.

(** ** Strings *)

Definition lower_ascii (c : ascii) : ascii :=
  let n := nat_of_ascii c in
  if ((65 <=? n) && (n <=? 90))%nat then ascii_of_nat (n + 32) else c.

Fixpoint lower (s : string) : string :=
  match s with
  | EmptyString => EmptyString
  | String c s' => String (lower_ascii c) (lower s')
  end.

(** ** app/operations/calc_utils.py *)

Module CalcUtils.

Local Open Scope Qc_scope.

(** The three messages of the [ValueError]s raised by [compute_result]; the
    specification names them InvalidInput, DivisionByZero and
    UnsupportedOperation. *)
Definition InvalidInput : exn :=
  ValueError "Inputs must be a list with at least two numbers.".

Definition DivisionByZero : exn :=
  ValueError "Cannot divide by zero.".

Definition UnsupportedOperation (calc_type : string) : exn :=
  ValueError ("Unsupported calculation type: " ++ calc_type).

(** [v == 0] *)
Definition is_zero (v : Qc) : bool := Qeq_bool v 0.

(** The builtin [sum]: a left fold starting from 0. *)
Definition py_sum (xs : list Qc) : Qc := fold_left Qcplus xs 0.

(** [inputs[0]] and [inputs[1:]]. *)
Definition item0 (inputs : list Qc) : Qc := nth 0 inputs 0.
Definition slice1 (inputs : list Qc) : list Qc := skipn 1 inputs.

(** [for v in vs: result -= v] *)
Fixpoint sub_loop (result : Qc) (vs : list Qc) : Qc :=
  match vs with
  | [] => result
  | v :: vs' => sub_loop (result - v) vs'
  end.

(** [for v in vs: result *= v] *)
Fixpoint mul_loop (result : Qc) (vs : list Qc) : Qc :=
  match vs with
  | [] => result
  | v :: vs' => mul_loop (result * v) vs'
  end.

(** [for v in vs: if v == 0: raise ...; result /= v] *)
Fixpoint div_loop (result : Qc) (vs : list Qc) : outcome Qc :=
  match vs with
  | [] => Ok result
  | v :: vs' =>
      if is_zero v then raise DivisionByZero
      else div_loop (result / v) vs'
  end.

Definition compute_result (calc_type : string) (inputs : list Qc) : outcome Qc :=
  if (List.length inputs <? 2)%nat then raise InvalidInput
  else
    let t := lower calc_type in
    if String.eqb t "addition" then Ok (py_sum inputs)
    else if String.eqb t "subtraction" then Ok (sub_loop (item0 inputs) (slice1 inputs))
    else if String.eqb t "multiplication" then Ok (mul_loop 1 inputs)
    else if String.eqb t "division" then div_loop (item0 inputs) (slice1 inputs)
    else raise (UnsupportedOperation calc_type).

End CalcUtils.

(** ** Rows of the calculations table and query results *)

Definition UUID := N.
Definition datetime := Z.

Record Calculation : Type := {
  id : UUID;
  user_id : UUID;
  type : string;
  inputs : list Qc;
  result : Qc;
  created_at : datetime;
  updated_at : datetime
}.

(** The session, reduced to the calculations table (rows in table order). *)
Definition Session := list Calculation.

(** [.first()] *)
Definition first {A : Type} (rows : list A) : option A := hd_error rows.

(** [.count()] and [len(...)], as Python integers. *)
Definition count {A : Type} (rows : list A) : Z := Z.of_nat (List.length rows).

(** [.offset(n)] and [.limit(n)] *)
Definition offset {A : Type} (n : Z) (rows : list A) : list A :=
  skipn (Z.to_nat n) rows.
Definition limit {A : Type} (n : Z) (rows : list A) : list A :=
  firstn (Z.to_nat n) rows.

(** [.order_by(desc(Calculation.created_at))]: rows by creation time, newest
    first.  Rows with equal creation times keep their table order (the
    database leaves that order open). *)
Fixpoint insert_desc (c : Calculation) (rows : list Calculation) : list Calculation :=
  match rows with
  | [] => [c]
  | d :: rows' =>
      if (created_at d <=? created_at c)%Z then c :: d :: rows'
      else d :: insert_desc c rows'
  end.

Fixpoint order_by_created_at_desc (rows : list Calculation) : list Calculation :=
  match rows with
  | [] => []
  | c :: rows' => insert_desc c (order_by_created_at_desc rows')
  end.

(** [Calculation.user_id == user_id] *)
Definition owned_by (user : UUID) (c : Calculation) : bool :=
  (user_id c =? user)%N.

(** [func.lower(Calculation.type) == operation.lower()] *)
Definition type_is (operation : string) (c : Calculation) : bool :=
  String.eqb (lower (type c)) (lower operation).

(** ** Python values returned by the aggregation functions

    Dictionaries keep their keys in insertion order.  [VUuid u] stands for
    [str(u)] and [VTime t] for [t.isoformat()]. *)

#[local] Unset Elimination Schemes.

Inductive value : Type :=
| VNone
| VInt (n : Z)
| VFloat (x : Qc)
| VStr (s : string)
| VUuid (u : UUID)
| VTime (t : datetime)
| VList (items : list value)
| VDict (entries : list (string * value)).

#[local] Set Elimination Schemes.

Fixpoint assoc {A : Type} (key : string) (entries : list (string * A)) : option A :=
  match entries with
  | [] => None
  | (k, v) :: entries' => if String.eqb k key then Some v else assoc key entries'
  end.

(** [d[key]] *)
Definition get (d : value) (key : string) : option value :=
  match d with
  | VDict entries => assoc key entries
  | _ => None
  end.

(** Builtins on numbers. *)
Module Builtins.

Local Open Scope Z_scope.

(** Nearest integer, halves to the even neighbour. *)
Definition round_half_even (q : Q) : Z :=
  let f := Qfloor q in
  match Qcompare (q - inject_Z f) (1 # 2) with
  | Lt => f
  | Gt => f + 1
  | Eq => if Z.even f then f else f + 1
  end.

(** [round(x, 2)] *)
Definition round2 (x : Qc) : Qc :=
  Q2Qc (inject_Z (round_half_even (x * inject_Z 100)) / inject_Z 100).

(** [a / b] on integers (true division). *)
Definition true_div (a b : Z) : Qc := Q2Qc (inject_Z a / inject_Z b).

(** [min(xs)] and [max(xs)] on a non-empty list: the first extremal item. *)
Definition py_min (x : Qc) (xs : list Qc) : Qc :=
  fold_left (fun m v : Qc => if Qle_bool m v then m else v) xs x.
Definition py_max (x : Qc) (xs : list Qc) : Qc :=
  fold_left (fun m v : Qc => if Qle_bool v m then m else v) xs x.

End Builtins.

(** Python dictionaries with string keys, in insertion order. *)
Module Dict.

Definition get_default (key : string) (default : Z) (d : list (string * Z)) : Z :=
  match assoc key d with
  | Some v => v
  | None => default
  end.

(** [d[key] = v]: an existing key keeps its position, a new one goes last. *)
Fixpoint set (key : string) (v : Z) (d : list (string * Z)) : list (string * Z) :=
  match d with
  | [] => [(key, v)]
  | (k, w) :: d' =>
      if String.eqb k key then (k, v) :: d' else (k, w) :: set key v d'
  end.

(** [d[key] = d.get(key, 0) + 1] *)
Definition incr (key : string) (d : list (string * Z)) : list (string * Z) :=
  set key (get_default key 0 d + 1)%Z d.

(** [max(d.items(), key=lambda x: x[1])] on a dictionary with first item
    [kv]: the first item whose count is maximal. *)
Definition max_by_count (kv : string * Z) (items : list (string * Z)) : string * Z :=
  fold_left (fun best item => if (snd best <? snd item)%Z then item else best)
            items kv.

Definition to_value (d : list (string * Z)) : value :=
  VDict (map (fun kv => (fst kv, VInt (snd kv))) d).

End Dict.

(** ** app/operations/statistics.py *)

Module Statistics.

Import CalcUtils Builtins.

Definition InvalidPage : exn :=
  ValueError "Page number must be >= 1".

Definition InvalidPageSize : exn :=
  ValueError "Page size must be between 1 and 100".

(** [timedelta(days=days)] in microseconds. *)
Definition timedelta_days (days : Z) : Z := (days * 86400000000)%Z.

(** The items of [recent_calculations]. *)
Definition recent_item (calc : Calculation) : value :=
  VDict [ ("id", VUuid (id calc));
          ("type", VStr (type calc));
          ("inputs", VList (map VFloat (inputs calc)));
          ("result", VFloat (result calc));
          ("created_at", VTime (created_at calc));
          ("updated_at", VTime (updated_at calc)) ].

(** The items of the history page. *)
Definition history_item (calc : Calculation) : value :=
  VDict [ ("id", VUuid (id calc));
          ("type", VStr (type calc));
          ("inputs", VList (map VFloat (inputs calc)));
          ("result", VFloat (result calc));
          ("user_id", VUuid (user_id calc));
          ("created_at", VTime (created_at calc));
          ("updated_at", VTime (updated_at calc)) ].

Section UserStatistics.

(** [str(func.date(t))]: the calendar date of a timestamp, as the database
    renders it. *)
Variable date : datetime -> string.

Definition get_calculations_by_day
    (db : Session) (user : UUID) (days : Z) (now : datetime) : list (string * Z) :=
  let end_date := now in
  let start_date := (end_date - timedelta_days days)%Z in
  let results :=
    filter (fun c => owned_by user c
                     && (start_date <=? created_at c)%Z
                     && (created_at c <=? end_date)%Z) db in
  fold_left (fun by_day c => Dict.incr (date (created_at c)) by_day) results [].

(** The loop over the user's calculations: operations breakdown, sum of the
    results and sum of the input counts. *)
Definition breakdown_loop (calculations : list Calculation)
  : list (string * Z) * Qc * Z :=
  fold_left
    (fun '(operations_breakdown, result_sum, inputs_count_sum) calc =>
       let operation := lower (type calc) in
       (Dict.incr operation operations_breakdown,
        (result_sum + result calc)%Qc,
        (inputs_count_sum + count (inputs calc))%Z))
    calculations ([], 0%Qc, 0%Z).

Definition calculate_user_statistics
    (db : Session) (user : UUID) (now : datetime) : value :=
  let calculations := filter (owned_by user) db in
  let total_calculations := count calculations in
  if (total_calculations =? 0)%Z then
    VDict [ ("total_calculations", VInt 0);
            ("operations_breakdown", VDict []);
            ("average_inputs_count", VNone);
            ("average_result", VNone);
            ("most_used_operation", VNone);
            ("recent_calculations", VList []);
            ("calculations_by_day", VDict []) ]
  else
    let '(operations_breakdown, result_sum, inputs_count_sum) :=
      breakdown_loop calculations in
    let average_inputs_count := round2 (true_div inputs_count_sum total_calculations) in
    let average_result :=
      round2 (result_sum / Q2Qc (inject_Z total_calculations))%Qc in
    let most_used_operation :=
      match operations_breakdown with
      | kv :: items => VStr (fst (Dict.max_by_count kv items))
      | [] => VNone
      end in
    let recent_calculations :=
      limit 10 (order_by_created_at_desc (filter (owned_by user) db)) in
    let calculations_by_day := get_calculations_by_day db user 30 now in
    VDict [ ("total_calculations", VInt total_calculations);
            ("operations_breakdown", Dict.to_value operations_breakdown);
            ("average_inputs_count", VFloat average_inputs_count);
            ("average_result", VFloat average_result);
            ("most_used_operation", most_used_operation);
            ("recent_calculations", VList (map recent_item recent_calculations));
            ("calculations_by_day", Dict.to_value calculations_by_day) ].

End UserStatistics.

(** Truth value of a string: [if s:] holds for a non-empty string only. *)
Definition truthy (s : string) : bool :=
  match s with
  | EmptyString => false
  | String _ _ => true
  end.

(** The query of [get_paginated_history] before ordering and slicing. *)
Definition history_query
    (db : Session) (user : UUID) (operation_filter : option string) : list Calculation :=
  let query := filter (owned_by user) db in
  match operation_filter with
  | Some operation =>
      if truthy operation then filter (type_is operation) query else query
  | None => query
  end.

Definition get_paginated_history
    (db : Session) (user : UUID) (page page_size : Z)
    (operation_filter : option string) : outcome value :=
  if (page <? 1)%Z then raise InvalidPage
  else if ((page_size <? 1) || (page_size >? 100))%Z then raise InvalidPageSize
  else
    let query := history_query db user operation_filter in
    let total := count query in
    let total_pages :=
      if (total >? 0)%Z then ((total + page_size - 1) / page_size)%Z else 0%Z in
    let calculations :=
      limit page_size
        (offset ((page - 1) * page_size)%Z (order_by_created_at_desc query)) in
    Ok (VDict [ ("calculations", VList (map history_item calculations));
                ("total", VInt total);
                ("page", VInt page);
                ("page_size", VInt page_size);
                ("total_pages", VInt total_pages) ]).

(** [sum] of a list of integers. *)
Definition int_sum (ns : list Z) : Z := fold_left Z.add ns 0%Z.

Definition get_operation_statistics
    (db : Session) (user : UUID) (operation : string) : value :=
  let calculations :=
    filter (fun c => owned_by user c && type_is operation c) db in
  match calculations with
  | [] =>
      VDict [ ("count", VInt 0);
              ("average_inputs_count", VNone);
              ("average_result", VNone);
              ("min_result", VNone);
              ("max_result", VNone) ]
  | c :: cs =>
      let result_values := map result calculations in
      let inputs_counts := map (fun c => count (inputs c)) calculations in
      VDict [ ("count", VInt (count calculations));
              ("average_inputs_count",
               VFloat (round2 (true_div (int_sum inputs_counts) (count calculations))));
              ("average_result",
               VFloat (round2 (py_sum result_values
                               / Q2Qc (inject_Z (count calculations)))%Qc));
              ("min_result", VFloat (round2 (py_min (result c) (map result cs))));
              ("max_result", VFloat (round2 (py_max (result c) (map result cs)))) ]
  end.

End Statistics.

(** ** app/schemas/calculation.py *)

Module Schemas.

(** [CalculationUpdate]: both fields are optional. *)
Record CalculationUpdate : Type := {
  type : option string;
  inputs : option (list Qc)
}.

(** [CalculationType]: the literal tags the schema admits. *)
Definition CalculationType (t : string) : bool :=
  String.eqb t "addition" || String.eqb t "subtraction"
  || String.eqb t "multiplication" || String.eqb t "division".

(** What the schema lets through: a literal tag, at least two inputs, and no
    zero divisor when the update itself says division. *)
Definition valid (u : CalculationUpdate) : bool :=
  match type u with
  | Some t => CalculationType t
  | None => true
  end
  && match inputs u with
     | Some v =>
         (2 <=? List.length v)%nat
         && match type u with
            | Some t =>
                negb (String.eqb t "division" && existsb CalcUtils.is_zero (skipn 1 v))
            | None => true
            end
     | None => true
     end.

End Schemas.

(** ** The routes of app/main.py on single calculations *)

Inductive response (A : Type) : Type :=
| Returned (a : A)
| HTTPException (status_code : Z) (detail : string)
| Unhandled (e : exn).

Arguments Returned {A} a.
Arguments HTTPException {A} status_code detail.
Arguments Unhandled {A} e.

(** The row a query object stands for is the first one its filter selects;
    assigning to its attributes and committing rewrites that row, deleting it
    removes that row. *)
Fixpoint replace_first (p : Calculation -> bool) (c' : Calculation) (db : Session)
  : Session :=
  match db with
  | [] => []
  | c :: db' => if p c then c' :: db' else c :: replace_first p c' db'
  end.

Fixpoint remove_first (p : Calculation -> bool) (db : Session) : Session :=
  match db with
  | [] => []
  | c :: db' => if p c then db' else c :: remove_first p db'
  end.

(** [Calculation.id == calc_uuid, Calculation.user_id == current_user.id] *)
Definition is_calc_of (calc_uuid current_user : UUID) (c : Calculation) : bool :=
  (id c =? calc_uuid)%N && (user_id c =? current_user)%N.

Definition with_inputs (c : Calculation) (v : list Qc) : Calculation :=
  {| id := id c; user_id := user_id c; type := type c; inputs := v;
     result := result c; created_at := created_at c; updated_at := updated_at c |}.

Definition with_type (c : Calculation) (t : string) : Calculation :=
  {| id := id c; user_id := user_id c; type := t; inputs := inputs c;
     result := result c; created_at := created_at c; updated_at := updated_at c |}.

Definition with_result (c : Calculation) (r : Qc) : Calculation :=
  {| id := id c; user_id := user_id c; type := type c; inputs := inputs c;
     result := r; created_at := created_at c; updated_at := updated_at c |}.

Definition with_updated_at (c : Calculation) (t : datetime) : Calculation :=
  {| id := id c; user_id := user_id c; type := type c; inputs := inputs c;
     result := result c; created_at := created_at c; updated_at := t |}.

(** Modelled from the spec: the method [Calculation.get_result] of the model
    class, which is not among the sources.  The record "owns no behavior
    beyond re-deriving its result from its own fields": the result is
    "derived deterministically from (operation tag, inputs) via the
    Arithmetic Engine". *)
Definition get_result (c : Calculation) : outcome Qc :=
  CalcUtils.compute_result (type c) (inputs c).

Definition NotFound {A : Type} : response A :=
  HTTPException 404 "Calculation not found.".

Definition BadId {A : Type} : response A :=
  HTTPException 400 "Invalid calculation id format.".

Module Main.

Section Routes.

(** [UUID(calc_id)]; [None] is its [ValueError]. *)
Variable UUID_of : string -> option UUID.

(** Browse: all rows of the current user, in table order. *)
Definition list_calculations (db : Session) (current_user : UUID) : list Calculation :=
  filter (fun c => (user_id c =? current_user)%N) db.

Definition get_calculation
    (db : Session) (current_user : UUID) (calc_id : string) : response Calculation :=
  match UUID_of calc_id with
  | None => BadId
  | Some calc_uuid =>
      match first (filter (is_calc_of calc_uuid current_user) db) with
      | None => NotFound
      | Some calculation => Returned calculation
      end
  end.

(** The route answers and leaves the table as its second component;
    [utcnow] is the reading of the clock. *)
Definition update_calculation
    (db : Session) (current_user : UUID) (calc_id : string)
    (calculation_update : Schemas.CalculationUpdate) (utcnow : datetime)
  : response Calculation * Session :=
  match UUID_of calc_id with
  | None => (BadId, db)
  | Some calc_uuid =>
      match first (filter (is_calc_of calc_uuid current_user) db) with
      | None => (NotFound, db)
      | Some calculation =>
          let recomputed :=
            match Schemas.inputs calculation_update with
            | Some v =>
                let calculation := with_inputs calculation v in
                r <- get_result calculation ;;
                Ok (with_result calculation r)
            | None => Ok calculation
            end in
          match recomputed with
          | Err e => (Unhandled e, db)
          | Ok calculation =>
              let calculation := with_updated_at calculation utcnow in
              (Returned calculation,
               replace_first (is_calc_of calc_uuid current_user) calculation db)
          end
      end
  end.

Definition delete_calculation
    (db : Session) (current_user : UUID) (calc_id : string)
  : response unit * Session :=
  match UUID_of calc_id with
  | None => (BadId, db)
  | Some calc_uuid =>
      match first (filter (is_calc_of calc_uuid current_user) db) with
      | None => (NotFound, db)
      | Some calculation =>
          (Returned tt, remove_first (is_calc_of calc_uuid current_user) db)
      end
  end.


End Routes.

End Main.

(** ** The updated PUT route (patched excerpt of app/main.py, stored as
    app/models/calculation.py) *)

Module Patched.

Section Routes.

Variable UUID_of : string -> option UUID.

(** List: all rows of the current user, newest first. *)
Definition list_calculations (db : Session) (current_user : UUID) : list Calculation :=
  order_by_created_at_desc (filter (fun c => (user_id c =? current_user)%N) db).

(** [calculation_update.type or calc.type] *)
Definition or_type (t : option string) (default : string) : string :=
  match t with
  | Some s => if Statistics.truthy s then s else default
  | None => default
  end.

(** [calculation_update.inputs or calc.inputs] *)
Definition or_inputs (v : option (list Qc)) (default : list Qc) : list Qc :=
  match v with
  | Some (x :: xs) => x :: xs
  | _ => default
  end.

(** [str(e)] *)
Definition str (e : exn) : string :=
  match e with
  | ValueError msg => msg
  end.

Definition update_calculation
    (db : Session) (current_user : UUID) (calc_id : string)
    (calculation_update : Schemas.CalculationUpdate) (utcnow : datetime)
  : response Calculation * Session :=
  match UUID_of calc_id with
  | None => (BadId, db)
  | Some calc_uuid =>
      match first (filter (is_calc_of calc_uuid current_user) db) with
      | None => (NotFound, db)
      | Some calc =>
          let new_type := or_type (Schemas.type calculation_update) (type calc) in
          let new_inputs := or_inputs (Schemas.inputs calculation_update) (inputs calc) in
          match CalcUtils.compute_result new_type new_inputs with
          | Err e => (HTTPException 400 (str e), db)
          | Ok new_result =>
              let calc :=
                with_updated_at
                  (with_result (with_inputs (with_type calc new_type) new_inputs)
                               new_result)
                  utcnow in
              (Returned calc, replace_first (is_calc_of calc_uuid current_user) calc db)
          end
      end
  end.

End Routes.

End Patched.

(** * The words of the specification *)

Module Spec.

Import CalcUtils Builtins Statistics.

Local Open Scope Qc_scope.

(** Integer literals as numbers. *)
Definition num (z : Z) : Qc := Q2Qc (inject_Z z).

(** The words of the specification: the sum and the product of all inputs,
    and the left-to-right difference and quotient. *)
Definition sum_of (xs : list Qc) : Qc := fold_right Qcplus 0 xs.
Definition divided_by_each (x0 : Qc) (rest : list Qc) : Qc := fold_left Qcdiv rest x0.

(** Case-insensitive comparison of an operation tag with a recognised one. *)
Definition tag_is (calc_type tag : string) : Prop := lower calc_type = lower tag.

Definition recognized (calc_type : string) : Prop :=
  tag_is calc_type "addition" \/ tag_is calc_type "subtraction" \/
  tag_is calc_type "multiplication" \/ tag_is calc_type "division".

(** Some input at an index at least 1 is exactly zero. *)
Definition zero_divisor (inputs : list Qc) : Prop :=
  exists i, (1 <= i)%nat /\ nth_error inputs i = Some 0.

Local Open Scope Z_scope.

(** [a] may stand before [b] when it is at least as recent. *)
Definition newest_first (a b : Calculation) : Prop := created_at b <= created_at a.

(** The words of the specification: ceiling(total / pageSize). *)
Definition ceiling_div (total page_size : Z) : Z :=
  Qceiling (inject_Z total / inject_Z page_size).

(** An operation filter that is absent or empty selects every row; any
    other one selects the rows whose tag equals it up to case. *)
Definition selected (operation_filter : option string) (c : Calculation) : bool :=
  match operation_filter with
  | Some (String a s) => type_is (String a s) c
  | _ => true
  end.

Definition matching (db : Session) (user : UUID) (operation_filter : option string)
  : list Calculation :=
  filter (fun c => owned_by user c && selected operation_filter c) db.

(** The history answer for given page rows and counters. *)
Definition history_page (page_rows : list Calculation) (total page page_size total_pages : Z)
  : value :=
  VDict [ ("calculations", VList (map history_item page_rows));
          ("total", VInt total);
          ("page", VInt page);
          ("page_size", VInt page_size);
          ("total_pages", VInt total_pages) ].

(** The words of the specification: the average of a list of numbers. *)
Definition mean (xs : list Qc) : Qc := (sum_of xs / num (count xs))%Qc.

(** The number of inputs of a calculation. *)
Definition inputs_count (c : Calculation) : Qc := num (count (inputs c)).

(** The rows of a user whose tag equals [operation] up to case. *)
Definition of_operation (db : Session) (user : UUID) (operation : string)
  : list Calculation :=
  filter (fun c => owned_by user c && String.eqb (lower (type c)) (lower operation)) db.



(** The table without any row of the given identifier. *)
Definition without (calc_uuid : UUID) (db : Session) : Session :=
  filter (fun c => negb (id c =? calc_uuid)%N) db.

(** The caller's view of a table: the answers of the three single-row routes
    (with the updated PUT route beside the one of app/main.py) and of the
    three aggregations. *)
Record view : Type := {
  read : response Calculation;
  updated : response Calculation;
  updated_patched : response Calculation;
  deleted : response unit;
  user_summary : value;
  history : outcome value;
  operation_summary_of : value
}.

Definition view_of
    (UUID_of : string -> option UUID) (date : datetime -> string)
    (db : Session) (caller : UUID) (calc_id : string)
    (upd : Schemas.CalculationUpdate) (now : datetime)
    (page page_size : Z) (operation_filter : option string) (operation : string) : view :=
  {| read := Main.get_calculation UUID_of db caller calc_id;
     updated := fst (Main.update_calculation UUID_of db caller calc_id upd now);
     updated_patched := fst (Patched.update_calculation UUID_of db caller calc_id upd now);
     deleted := fst (Main.delete_calculation UUID_of db caller calc_id);
     user_summary := calculate_user_statistics date db caller now;
     history := get_paginated_history db caller page page_size operation_filter;
     operation_summary_of := get_operation_statistics db caller operation |}.

End Spec.

(** * Sample tables *)

Module Samples.

Import CalcUtils Builtins Spec.

Local Open Scope Z_scope.

(** Twenty-five calculations of user 1, created at times 1 to 25. *)
Definition sample_row (n : nat) : Calculation :=
  {| id := N.of_nat n; user_id := 1%N; type := "addition";
     inputs := [num 1; num 2]; result := num 3;
     created_at := Z.of_nat n; updated_at := Z.of_nat n |}.

Definition sample_db : Session := map sample_row (seq 1 25).

(** Three calculations of user 1 and one of user 2. *)
Definition mixed_db : Session :=
  [ {| id := 1%N; user_id := 1%N; type := "addition";
       inputs := [num 1; num 2]; result := num 3;
       created_at := 10; updated_at := 10 |};
    {| id := 2%N; user_id := 1%N; type := "Addition";
       inputs := [num 1; num 2; num 4]; result := num 7;
       created_at := 20; updated_at := 20 |};
    {| id := 3%N; user_id := 2%N; type := "addition";
       inputs := [num 5; num 5]; result := num 10;
       created_at := 30; updated_at := 30 |};
    {| id := 4%N; user_id := 1%N; type := "division";
       inputs := [num 1; num 3]; result := true_div 1 3;
       created_at := 40; updated_at := 40 |} ].

(** One addition row of user 1, and an update that names subtraction only. *)
Definition addition_row : Calculation :=
  {| id := 1%N; user_id := 1%N; type := "addition";
     inputs := [num 1; num 2]; result := num 3;
     created_at := 10; updated_at := 10 |}.

Definition to_subtraction : Schemas.CalculationUpdate :=
  {| Schemas.type := Some "subtraction"; Schemas.inputs := None |}.

(** [addition_row] with a later update time, and the same row recomputed as
    a subtraction. *)
Definition stale_row : Calculation :=
  {| id := 1%N; user_id := 1%N; type := "addition";
     inputs := [num 1; num 2]; result := num 3;
     created_at := 10; updated_at := 99 |}.

Definition fresh_row : Calculation :=
  {| id := 1%N; user_id := 1%N; type := "subtraction";
     inputs := [num 1; num 2]; result := num (-1);
     created_at := 10; updated_at := 99 |}.

(** The row of user 2 in [mixed_db]. *)
Definition foreign_row : Calculation :=
  {| id := 3%N; user_id := 2%N; type := "addition";
     inputs := [num 5; num 5]; result := num 10;
     created_at := 30; updated_at := 30 |}.

(** A reading of identifiers that takes one decimal digit. *)
Definition digit_UUID (calc_id : string) : option UUID :=
  match calc_id with
  | String c EmptyString =>
      let n := N_of_ascii c in
      if ((48 <=? n) && (n <=? 57))%N then Some (n - 48)%N else None
  | _ => None
  end.

(** A rendering of dates that puts every timestamp on one day. *)
Definition one_day (t : datetime) : string := "2025-12-01".

End Samples.

(** * Further vocabulary *)

Module Terms.

Import CalcUtils Builtins Statistics Spec.

Local Open Scope Z_scope.

(** How often [k] occurs among [keys]. *)
Definition tally (k : string) (keys : list string) : Z :=
  count (filter (String.eqb k) keys).

(** The sum of the counts of a dictionary. *)
Definition entries_total (d : list (string * Z)) : Z :=
  fold_right (fun kv s => snd kv + s) 0 d.

(** The rows of a user, and those among them tagged [k] up to case. *)
Definition rows_of (db : Session) (user : UUID) : list Calculation :=
  filter (owned_by user) db.

Definition tagged (db : Session) (user : UUID) (k : string) : list Calculation :=
  filter (fun c => owned_by user c && String.eqb (lower (type c)) k) db.

(** The rows of a user created within [days] days before [now]. *)
Definition in_window (now : datetime) (days : Z) (c : Calculation) : bool :=
  (now - timedelta_days days <=? created_at c) && (created_at c <=? now).

Definition recent_rows (db : Session) (user : UUID) (now : datetime) (days : Z)
  : list Calculation :=
  filter (fun c => owned_by user c && in_window now days c) db.

(** The items under ["calculations"] of a history answer. *)
Definition calculations_of (r : outcome value) : list value :=
  match r with
  | Ok d =>
      match get d "calculations" with
      | Some (VList items) => items
      | _ => []
      end
  | Err _ => []
  end.

(** A row whose stored result is the one its tag and inputs compute. *)
Definition consistent (c : Calculation) : Prop :=
  compute_result (type c) (inputs c) = Ok (result c).

(** A row as the create route stores it: a recognised tag and two inputs. *)
Definition well_formed (c : Calculation) : Prop :=
  recognized (type c) /\ (2 <= List.length (inputs c))%nat.

End Terms.

(** * Further samples *)

Module MoreSamples.

Import CalcUtils Builtins Spec Samples.

Local Open Scope Z_scope.

(** An update to a division of 6 by 3, and one that only brings in a zero
    divisor. *)
Definition to_division : Schemas.CalculationUpdate :=
  {| Schemas.type := Some "division"; Schemas.inputs := Some [num 6; num 3] |}.

Definition zero_inputs : Schemas.CalculationUpdate :=
  {| Schemas.type := None; Schemas.inputs := Some [num 1; num 0] |}.

(** The first row of [mixed_db]. *)
Definition first_row : Calculation :=
  {| id := 1%N; user_id := 1%N; type := "addition";
     inputs := [num 1; num 2]; result := num 3;
     created_at := 10; updated_at := 10 |}.

(** The division row of [mixed_db]. *)
Definition division_row : Calculation :=
  {| id := 4%N; user_id := 1%N; type := "division";
     inputs := [num 1; num 3]; result := true_div 1 3;
     created_at := 40; updated_at := 40 |}.

End MoreSamples.

(** * Properties *)

(** ** The arithmetic engine *)

(** Splits a conjunction into its conjuncts, leaving equivalences whole. *)
Ltac conjs := repeat match goal with |- _ /\ _ => split end.

Module CalcUtilsFacts.

Import CalcUtils Spec.

Local Open Scope Qc_scope.

Ltac qc_eq := apply Qc_is_canon; vm_compute; reflexivity.

(** Settles [call = Ok q] for a closed call by evaluating it. *)
Ltac eval_ok :=
  match goal with
  | |- ?call = Ok ?q =>
      let v := eval vm_compute in call in
      match v with
      | Ok ?q' => change call with (Ok q'); apply (f_equal Ok); qc_eq
      end
  end.

Lemma is_zero_iff (v : Qc) : is_zero v = true <-> v = 0.
Proof.
  unfold is_zero. rewrite Qeq_bool_iff. split.
  - intros H. now apply Qc_is_canon.
  - intros ->. reflexivity.
Qed.



Lemma py_sum_sum_of (xs : list Qc) : py_sum xs = sum_of xs.
Proof.
  unfold py_sum, sum_of. apply fold_symmetric; intros; ring.
Qed.


Lemma div_loop_ok (vs : list Qc) :
  forall r, existsb is_zero vs = false -> div_loop r vs = Ok (divided_by_each r vs).
Proof.
  induction vs as [|v vs IH]; intros r H; simpl in *.
  - reflexivity.
  - apply orb_false_elim in H as [Hv Hvs]. rewrite Hv. now apply IH.
Qed.

Lemma div_loop_err (vs : list Qc) :
  forall r, existsb is_zero vs = true -> div_loop r vs = Err DivisionByZero.
Proof.
  induction vs as [|v vs IH]; intros r H; simpl in *.
  - discriminate.
  - destruct (is_zero v) eqn:Hv; [reflexivity|]. now apply IH.
Qed.

Lemma zero_divisor_existsb (x0 : Qc) (rest : list Qc) :
  zero_divisor (x0 :: rest) <-> existsb is_zero rest = true.
Proof.
  unfold zero_divisor. rewrite existsb_exists. split.
  - intros (i & Hi & Hnth). destruct i as [|i]; [lia|]. simpl in Hnth.
    exists 0. split; [now apply nth_error_In in Hnth | now apply is_zero_iff].
  - intros (v & Hin & Hv). apply is_zero_iff in Hv. subst v.
    apply In_nth_error in Hin as (i & Hi). exists (S i). split; [lia | exact Hi].
Qed.

(** The four branches of [compute_result] on a list of at least two inputs. *)
Lemma compute_result_long (calc_type : string) (x0 x1 : Qc) (rest : list Qc) :
  compute_result calc_type (x0 :: x1 :: rest) =
    let t := lower calc_type in
    if String.eqb t "addition" then Ok (py_sum (x0 :: x1 :: rest))
    else if String.eqb t "subtraction" then Ok (sub_loop x0 (x1 :: rest))
    else if String.eqb t "multiplication" then Ok (mul_loop 1 (x0 :: x1 :: rest))
    else if String.eqb t "division" then div_loop x0 (x1 :: rest)
    else raise (UnsupportedOperation calc_type).
Proof. reflexivity. Qed.

Lemma compute_result_short (calc_type : string) (inputs : list Qc) :
  (List.length inputs < 2)%nat -> compute_result calc_type inputs = Err InvalidInput.
Proof.
  intros H. unfold compute_result.
  apply Nat.ltb_lt in H. now rewrite H.
Qed.

Lemma two_inputs (inputs : list Qc) :
  (2 <= List.length inputs)%nat ->
  exists x0 x1 rest, inputs = x0 :: x1 :: rest.
Proof.
  destruct inputs as [|x0 [|x1 rest]]; simpl; intros H; try lia.
  now exists x0, x1, rest.
Qed.

Lemma InvalidInput_not_Unsupported (t : string) : InvalidInput <> UnsupportedOperation t.
Proof. unfold InvalidInput, UnsupportedOperation. simpl. discriminate. Qed.

Lemma DivisionByZero_not_Unsupported (t : string) : DivisionByZero <> UnsupportedOperation t.
Proof. unfold DivisionByZero, UnsupportedOperation. simpl. discriminate. Qed.

Lemma InvalidInput_not_DivisionByZero : InvalidInput <> DivisionByZero.
Proof. unfold InvalidInput, DivisionByZero. discriminate. Qed.



Lemma compute_result_division (calc_type : string) (x0 x1 : Qc) (rest : list Qc) :
  tag_is calc_type "division" ->
  compute_result calc_type (x0 :: x1 :: rest) = div_loop x0 (x1 :: rest).
Proof.
  unfold tag_is. intros H. rewrite compute_result_long. cbv zeta. now rewrite H.
Qed.

(** C3.  On at least two inputs and with the division tag (up to case),
    [compute_result] fails with the division-by-zero error exactly when some
    input at an index at least 1 is zero, it fails in no other case, and
    without such a divisor it returns the left-to-right quotient, whatever the
    first input is; [compute_result "division" [10; 0]] fails with that
    error and [compute_result "division" [0; 5]] returns 0. *)
Theorem division_by_zero_iff (calc_type : string) (inputs : list Qc) :
  tag_is calc_type "division" ->
  (2 <= List.length inputs)%nat ->
  (compute_result calc_type inputs = Err DivisionByZero <-> zero_divisor inputs) /\
  (fails (compute_result calc_type inputs) <-> zero_divisor inputs) /\
  (~ zero_divisor inputs ->
   compute_result calc_type inputs
   = Ok (divided_by_each (nth 0 inputs 0) (skipn 1 inputs))) /\
  compute_result "division" [num 10; num 0] = Err DivisionByZero /\
  compute_result "division" [num 0; num 5] = Ok (num 0).
Proof.
  intros Htag Hlen. destruct (two_inputs inputs Hlen) as (x0 & x1 & rest & ->).
  rewrite (compute_result_division _ _ _ _ Htag).
  rewrite zero_divisor_existsb.
  destruct (existsb is_zero (x1 :: rest)) eqn:Hz.
  - rewrite (div_loop_err _ _ Hz). conjs.
    + tauto.
    + split; [reflexivity | intros _; now exists DivisionByZero].
    + intros H. now contradiction H.
    + reflexivity.
    + eval_ok.
  - rewrite (div_loop_ok _ _ Hz). conjs.
    + split; discriminate.
    + split; [intros (e & He); discriminate | discriminate].
    + reflexivity.
    + reflexivity.
    + eval_ok.
Qed.

Lemma division_by_zero_iff_witness :
  tag_is "Division" "division" /\
  (2 <= List.length [num 7; num 0])%nat /\
  (compute_result "Division" [num 7; num 0] = Err DivisionByZero
   <-> zero_divisor [num 7; num 0]).
Proof.
  split; [reflexivity|]. split; [simpl; lia|].
  apply (proj1 (division_by_zero_iff "Division" [num 7; num 0]
                  eq_refl ltac:(simpl; lia))).
Defined.

Lemma not_recognized_eqb (calc_type : string) :
  ~ recognized calc_type ->
  String.eqb (lower calc_type) "addition" = false /\
  String.eqb (lower calc_type) "subtraction" = false /\
  String.eqb (lower calc_type) "multiplication" = false /\
  String.eqb (lower calc_type) "division" = false.
Proof.
  unfold recognized, tag_is. intros H.
  conjs; apply String.eqb_neq; intros Heq; apply H; rewrite Heq; simpl; tauto.
Qed.

Lemma compute_result_unsupported (calc_type : string) (inputs : list Qc) :
  (2 <= List.length inputs)%nat ->
  ~ recognized calc_type ->
  compute_result calc_type inputs = Err (UnsupportedOperation calc_type).
Proof.
  intros Hlen Hrec. destruct (two_inputs inputs Hlen) as (x0 & x1 & rest & ->).
  rewrite compute_result_long. cbv zeta.
  destruct (not_recognized_eqb _ Hrec) as (-> & -> & -> & ->). reflexivity.
Qed.

(** A failure with the unsupported-operation error needs two inputs. *)
Lemma unsupported_has_two_inputs (calc_type t : string) (inputs : list Qc) :
  compute_result calc_type inputs = Err (UnsupportedOperation t) ->
  (2 <= List.length inputs)%nat.
Proof.
  intros H. destruct (Nat.lt_ge_cases (List.length inputs) 2) as [Hlt|Hge]; [|exact Hge].
  rewrite (compute_result_short _ _ Hlt) in H.
  exfalso. apply (InvalidInput_not_Unsupported t). congruence.
Qed.

Lemma bogus_not_recognized : ~ recognized "bogus".
Proof. unfold recognized, tag_is. simpl. intros [H|[H|[H|H]]]; discriminate. Qed.

(** C4, as stated, fails: the tag ["bogus"] is none of the four, yet on the
    single input [5] the call fails with the too-few-inputs error and not
    with the unsupported-operation error. *)
Lemma compute_bogus_single_input :
  ~ recognized "bogus" /\
  compute_result "bogus" [num 5] = Err InvalidInput /\
  (forall t, compute_result "bogus" [num 5] <> Err (UnsupportedOperation t)).
Proof.
  split; [exact bogus_not_recognized|]. split; [reflexivity|].
  intros t H. apply unsupported_has_two_inputs in H. simpl in H. lia.
Qed.

(** C4, amended.  [compute_result] fails with the too-few-inputs error
    whenever there are fewer than two inputs, and with the
    unsupported-operation error whenever there are at least two inputs and
    the tag is, up to case, none of the four; [compute_result "addition" [5]]
    fails with the former and [compute_result "bogus" [1; 2]] with the
    latter. *)
Theorem compute_result_errors (calc_type : string) (inputs : list Qc) :
  ((List.length inputs < 2)%nat ->
   compute_result calc_type inputs = Err InvalidInput) /\
  ((2 <= List.length inputs)%nat -> ~ recognized calc_type ->
   compute_result calc_type inputs = Err (UnsupportedOperation calc_type)) /\
  compute_result "addition" [num 5] = Err InvalidInput /\
  compute_result "bogus" [num 1; num 2] = Err (UnsupportedOperation "bogus").
Proof.
  conjs.
  - apply compute_result_short.
  - apply compute_result_unsupported.
  - reflexivity.
  - reflexivity.
Qed.

Lemma compute_result_errors_witness :
  ((List.length [num 5] < 2)%nat /\
   compute_result "division" [num 5] = Err InvalidInput) /\
  ((2 <= List.length [num 1; num 2])%nat /\ ~ recognized "bogus" /\
   compute_result "bogus" [num 1; num 2] = Err (UnsupportedOperation "bogus")).
Proof.
  split.
  - split; [simpl; lia|].
    apply (proj1 (compute_result_errors "division" [num 5])). simpl; lia.
  - split; [simpl; lia|]. split; [exact bogus_not_recognized|].
    apply (proj1 (proj2 (compute_result_errors "bogus" [num 1; num 2])));
      [simpl; lia | exact bogus_not_recognized].
Defined.

(** C10.  With fewer than two inputs [compute_result] fails with the
    too-few-inputs error whatever the tag is, and never with the
    unsupported-operation error: the length check comes first, so a failure
    with the unsupported-operation error only occurs on at least two
    inputs. *)
Theorem length_check_precedes_tag_check (calc_type : string) (inputs : list Qc) :
  ((List.length inputs < 2)%nat ->
   compute_result calc_type inputs = Err InvalidInput /\
   forall t, compute_result calc_type inputs <> Err (UnsupportedOperation t)) /\
  (forall t, compute_result calc_type inputs = Err (UnsupportedOperation t) ->
             (2 <= List.length inputs)%nat).
Proof.
  split.
  - intros Hlt. split; [now apply compute_result_short|].
    intros t H. apply unsupported_has_two_inputs in H. lia.
  - intros t. apply unsupported_has_two_inputs.
Qed.

Lemma length_check_precedes_tag_check_witness :
  (List.length [num 1] < 2)%nat /\
  compute_result "modulo" [num 1] = Err InvalidInput /\
  (forall t, compute_result "modulo" [num 1] <> Err (UnsupportedOperation t)).
Proof.
  split; [simpl; lia|].
  apply (proj1 (length_check_precedes_tag_check "modulo" [num 1])). simpl; lia.
Defined.

End CalcUtilsFacts.

(** ** The statistics aggregator *)

Module StatisticsFacts.

Import CalcUtils Builtins Statistics Spec Samples CalcUtilsFacts.

Local Open Scope Z_scope.

(** *** Ordering by creation time *)

Lemma insert_desc_perm (c : Calculation) (rows : list Calculation) :
  Permutation (insert_desc c rows) (c :: rows).
Proof.
  induction rows as [|d rows IH]; simpl.
  - apply Permutation_refl.
  - destruct (created_at d <=? created_at c).
    + apply Permutation_refl.
    + eapply perm_trans; [apply perm_skip, IH | apply perm_swap].
Qed.

Lemma order_by_created_at_desc_perm (rows : list Calculation) :
  Permutation (order_by_created_at_desc rows) rows.
Proof.
  induction rows as [|c rows IH]; simpl.
  - apply perm_nil.
  - eapply perm_trans; [apply insert_desc_perm | now apply perm_skip].
Qed.

Lemma insert_desc_hd (c d : Calculation) (rows : list Calculation) :
  newest_first d c -> HdRel newest_first d rows ->
  HdRel newest_first d (insert_desc c rows).
Proof.
  intros Hdc Hhd. destruct rows as [|e rows]; simpl.
  - now constructor.
  - destruct (created_at e <=? created_at c); constructor; auto.
    now inversion Hhd.
Qed.

Lemma insert_desc_sorted (c : Calculation) (rows : list Calculation) :
  Sorted newest_first rows -> Sorted newest_first (insert_desc c rows).
Proof.
  induction 1 as [|d rows Hsorted IH Hhd]; simpl.
  - repeat constructor.
  - destruct (created_at d <=? created_at c) eqn:Hle.
    + constructor; [now constructor|]. constructor.
      unfold newest_first. now apply Z.leb_le.
    + constructor; [exact IH|]. apply insert_desc_hd; [|exact Hhd].
      unfold newest_first. apply Z.leb_gt in Hle. lia.
Qed.

Lemma order_by_created_at_desc_sorted (rows : list Calculation) :
  Sorted newest_first (order_by_created_at_desc rows).
Proof.
  induction rows as [|c rows IH]; simpl.
  - constructor.
  - now apply insert_desc_sorted.
Qed.

(** Every row of the ordered list is at least as recent as all rows after it. *)
Lemma order_by_created_at_desc_newest_first (rows : list Calculation) :
  StronglySorted newest_first (order_by_created_at_desc rows).
Proof.
  apply Sorted_StronglySorted; [|apply order_by_created_at_desc_sorted].
  intros a b c Hab Hbc. unfold newest_first in *. lia.
Qed.

(** *** Page arithmetic *)

Lemma ceiling_div_formula (total page_size : Z) :
  0 < page_size ->
  (total + page_size - 1) / page_size = ceiling_div total page_size.
Proof.
  intros Hps. destruct page_size as [|p|p]; try lia.
  unfold ceiling_div, Qceiling, Qfloor. simpl.
  rewrite Z.mul_1_r.
  symmetry. apply Z.opp_inj. rewrite Z.opp_involutive. symmetry.
  pose proof (Z.div_mod (- total) (Z.pos p) ltac:(lia)) as Hdm.
  pose proof (Z.mod_pos_bound (- total) (Z.pos p) ltac:(lia)) as Hb.
  set (q := - total / Z.pos p) in *. set (r := (- total) mod Z.pos p) in *.
  assert (Hq : (total + Z.pos p - 1) / Z.pos p = - q).
  { symmetry. apply (Z.div_unique _ _ _ (Z.pos p - 1 - r)); lia. }
  lia.
Qed.

Lemma page_length {A : Type} (rows : list A) (page page_size : Z) :
  1 <= page -> 1 <= page_size ->
  count (limit page_size (offset ((page - 1) * page_size) rows))
  = Z.min page_size (Z.max 0 (count rows - (page - 1) * page_size)).
Proof.
  intros Hp Hps. unfold count, limit, offset.
  rewrite length_firstn, length_skipn. nia.
Qed.

(** *** Which rows a history query selects *)

Lemma filter_filter {A : Type} (f g : A -> bool) (l : list A) :
  filter g (filter f l) = filter (fun x => f x && g x) l.
Proof.
  induction l as [|x l IH]; simpl; [reflexivity|].
  destruct (f x); simpl; [destruct (g x)|]; now rewrite IH.
Qed.

Lemma history_query_matching (db : Session) (user : UUID) (operation_filter : option string) :
  history_query db user operation_filter = matching db user operation_filter.
Proof.
  unfold history_query, matching.
  destruct operation_filter as [[|a s]|]; simpl.
  - apply filter_ext. intros c. now rewrite andb_true_r.
  - apply filter_filter.
  - apply filter_ext. intros c. now rewrite andb_true_r.
Qed.

Lemma get_paginated_history_in_bounds
    (db : Session) (user : UUID) (page page_size : Z) (operation_filter : option string) :
  1 <= page -> 1 <= page_size <= 100 ->
  get_paginated_history db user page page_size operation_filter
  = let records := matching db user operation_filter in
    Ok (history_page
          (limit page_size
             (offset ((page - 1) * page_size) (order_by_created_at_desc records)))
          (count records) page page_size
          (if count records =? 0 then 0 else ceiling_div (count records) page_size)).
Proof.
  intros Hp Hps. unfold get_paginated_history.
  destruct (Z.ltb_spec page 1) as [|_]; [lia|].
  destruct (Z.ltb_spec page_size 1) as [|_]; [lia|].
  destruct (Z.gtb_spec page_size 100) as [|_]; [lia|].
  cbv zeta. simpl orb. cbv iota. rewrite history_query_matching.
  set (total := count (matching db user operation_filter)).
  assert (Hnn : 0 <= total) by (unfold total, count; lia).
  assert (Htp : (if total >? 0 then (total + page_size - 1) / page_size else 0)
                = (if total =? 0 then 0 else ceiling_div total page_size)).
  { destruct (Z.gtb_spec total 0), (Z.eqb_spec total 0); try lia.
    apply ceiling_div_formula. lia. }
  rewrite Htp. reflexivity.
Qed.



Lemma InvalidPage_not_InvalidPageSize : InvalidPage <> InvalidPageSize.
Proof. unfold InvalidPage, InvalidPageSize. discriminate. Qed.

(** C6, as stated, fails: with page 0 and page size 101 the page size is
    above 100, yet the call fails with the page-number error and not with the
    page-size error. *)
Lemma page_zero_size_101 :
  get_paginated_history [] 1%N 0 101 None = Err InvalidPage /\
  get_paginated_history [] 1%N 0 101 None <> Err InvalidPageSize.
Proof.
  split; [reflexivity|].
  intros H. apply InvalidPage_not_InvalidPageSize.
  change (get_paginated_history [] 1%N 0 101 None) with (@Err value InvalidPage) in H.
  congruence.
Qed.

(** C6, amended.  [get_paginated_history] fails with the page-number error
    whenever the page is below 1, and with the page-size error whenever the
    page is at least 1 and the page size is below 1 or above 100; with both
    within their bounds it does not fail.  Page 0 fails with the former, and
    page size 101 on page 1 with the latter. *)
Theorem paginated_history_bounds
    (db : Session) (user : UUID) (page page_size : Z) (operation_filter : option string) :
  (page < 1 ->
   get_paginated_history db user page page_size operation_filter = Err InvalidPage) /\
  (1 <= page -> page_size < 1 \/ 100 < page_size ->
   get_paginated_history db user page page_size operation_filter = Err InvalidPageSize) /\
  (1 <= page -> 1 <= page_size <= 100 ->
   exists history,
     get_paginated_history db user page page_size operation_filter = Ok history) /\
  get_paginated_history db user 0 page_size operation_filter = Err InvalidPage /\
  get_paginated_history db user 1 101 operation_filter = Err InvalidPageSize.
Proof.
  conjs.
  - intros Hp. unfold get_paginated_history.
    destruct (Z.ltb_spec page 1); [reflexivity|lia].
  - intros Hp Hps. unfold get_paginated_history.
    destruct (Z.ltb_spec page 1); [lia|].
    destruct (Z.ltb_spec page_size 1); [reflexivity|].
    destruct (Z.gtb_spec page_size 100); [reflexivity|lia].
  - intros Hp Hps. rewrite get_paginated_history_in_bounds by assumption.
    eexists. reflexivity.
  - reflexivity.
  - reflexivity.
Qed.

Lemma paginated_history_bounds_witness :
  (-1 < 1 /\
   get_paginated_history sample_db 1%N (-1) 10 None = Err InvalidPage) /\
  (1 <= 2 /\ (0 < 1 \/ 100 < 0) /\
   get_paginated_history sample_db 1%N 2 0 None = Err InvalidPageSize) /\
  (1 <= 2 /\ 1 <= 100 <= 100 /\
   exists history, get_paginated_history sample_db 1%N 2 100 None = Ok history).
Proof.
  conjs; try lia.
  - apply (proj1 (paginated_history_bounds sample_db 1%N (-1) 10 None)). lia.
  - apply (proj1 (proj2 (paginated_history_bounds sample_db 1%N 2 0 None))); lia.
  - apply (proj1 (proj2 (proj2 (paginated_history_bounds sample_db 1%N 2 100 None)))); lia.
Defined.

(** *** The user summary *)

Lemma filter_nil_iff {A : Type} (f : A -> bool) (l : list A) :
  (forall x, In x l -> f x = false) -> filter f l = [].
Proof.
  induction l as [|x l IH]; simpl; intros H; [reflexivity|].
  rewrite (H x (or_introl eq_refl)). apply IH. intros y Hy. apply H. now right.
Qed.

Lemma owned_by_iff (user : UUID) (c : Calculation) :
  owned_by user c = true <-> user_id c = user.
Proof. unfold owned_by. apply N.eqb_eq. Qed.

(** C9.  For a user without any calculation, [calculate_user_statistics]
    returns a summary (it has no failing branch): 0 calculations, an empty
    operations breakdown, no average input count, no average result, no most
    used operation, an empty list of recent calculations and an empty count
    by day. *)
Theorem user_summary_empty
    (date : datetime -> string) (db : Session) (user : UUID) (now : datetime) :
  (forall c, In c db -> user_id c <> user) ->
  calculate_user_statistics date db user now
  = VDict [ ("total_calculations", VInt 0);
            ("operations_breakdown", VDict []);
            ("average_inputs_count", VNone);
            ("average_result", VNone);
            ("most_used_operation", VNone);
            ("recent_calculations", VList []);
            ("calculations_by_day", VDict []) ].
Proof.
  intros Hnone. unfold calculate_user_statistics.
  rewrite filter_nil_iff; [reflexivity|].
  intros c Hc. apply not_true_is_false. rewrite owned_by_iff. now apply Hnone.
Qed.

Lemma user_summary_empty_witness :
  (forall c, In c sample_db -> user_id c <> 2%N) /\
  get (calculate_user_statistics one_day sample_db 2%N 100)
      "total_calculations" = Some (VInt 0).
Proof.
  assert (H : forall c, In c sample_db -> user_id c <> 2%N).
  { intros c Hc. unfold sample_db in Hc. apply in_map_iff in Hc as (n & <- & _).
    simpl. discriminate. }
  split; [exact H|].
  rewrite (user_summary_empty one_day sample_db 2%N 100 H).
  reflexivity.
Defined.

(** *** The operation summary *)



Lemma num_plus (a b : Z) : num (a + b) = (num a + num b)%Qc.
Proof.
  apply Qc_is_canon. unfold num, Qcplus, Q2Qc. cbn [this].
  rewrite !Qred_correct. rewrite inject_Z_plus. reflexivity.
Qed.

Lemma true_div_num (a b : Z) : true_div a b = (num a / num b)%Qc.
Proof.
  apply Qc_is_canon. unfold true_div, num, Qcdiv, Qcmult, Qcinv, Q2Qc. cbn [this].
  rewrite !Qred_correct. reflexivity.
Qed.

Lemma int_sum_num (ns : list Z) : num (int_sum ns) = sum_of (map num ns).
Proof.
  unfold int_sum. rewrite fold_symmetric by (intros; lia).
  induction ns as [|n ns IH]; simpl; [reflexivity|].
  now rewrite num_plus, IH.
Qed.



Lemma count_map {A B : Type} (f : A -> B) (l : list A) : count (map f l) = count l.
Proof. unfold count. now rewrite length_map. Qed.




End StatisticsFacts.

(** ** The routes on single calculations *)

Module RoutesFacts.

Import CalcUtils Builtins Statistics Spec Samples CalcUtilsFacts StatisticsFacts.

Local Open Scope Z_scope.

(** *** Updates *)

Lemma replace_first_In (p : Calculation -> bool) (c' : Calculation) (db : Session) :
  (exists c, In c db /\ p c = true) -> In c' (replace_first p c' db).
Proof.
  induction db as [|d db IH]; simpl; intros (c & Hin & Hp); [contradiction|].
  destruct (p d) eqn:Hd; [now left|]. right. apply IH.
  destruct Hin as [->|Hin]; [congruence|]. now exists c.
Qed.

Lemma first_filter_Some {A : Type} (p : A -> bool) (l : list A) (x : A) :
  first (filter p l) = Some x -> In x l /\ p x = true.
Proof.
  unfold first. intros H. apply filter_In.
  destruct (filter p l) as [|y l']; simpl in H; [discriminate|].
  injection H as ->. now left.
Qed.

(** The updated PUT route: whenever the new tag and inputs compute, the
    stored row carries the new tag, the new inputs, their result and the
    time of the update. *)
Lemma patched_update_recomputes
    (UUID_of : string -> option UUID) (db : Session) (user : UUID) (calc_id : string)
    (calc_uuid : UUID) (upd : Schemas.CalculationUpdate) (utcnow : datetime)
    (calc : Calculation) (r : Qc) :
  UUID_of calc_id = Some calc_uuid ->
  first (filter (is_calc_of calc_uuid user) db) = Some calc ->
  let new_type := Patched.or_type (Schemas.type upd) (type calc) in
  let new_inputs := Patched.or_inputs (Schemas.inputs upd) (inputs calc) in
  compute_result new_type new_inputs = Ok r ->
  exists calc' db',
    Patched.update_calculation UUID_of db user calc_id upd utcnow = (Returned calc', db') /\
    In calc' db' /\
    type calc' = new_type /\ inputs calc' = new_inputs /\
    compute_result (type calc') (inputs calc') = Ok (result calc') /\
    updated_at calc' = utcnow /\
    id calc' = id calc /\ user_id calc' = user_id calc /\ created_at calc' = created_at calc.
Proof.
  intros Hid Hfirst new_type new_inputs Hr.
  unfold Patched.update_calculation. rewrite Hid, Hfirst.
  fold new_type new_inputs. rewrite Hr.
  eexists. eexists. split; [reflexivity|]. simpl. conjs; auto.
  apply replace_first_In. exists calc. now apply first_filter_Some.
Qed.

(** The PUT route of app/main.py: given new inputs on which the row's tag
    computes, the stored row carries them, their result under the row's tag
    and the time of the update. *)
Lemma main_update_inputs
    (UUID_of : string -> option UUID) (db : Session) (user : UUID) (calc_id : string)
    (calc_uuid : UUID) (t : option string) (v : list Qc) (utcnow : datetime)
    (calc : Calculation) (r : Qc) :
  UUID_of calc_id = Some calc_uuid ->
  first (filter (is_calc_of calc_uuid user) db) = Some calc ->
  compute_result (type calc) v = Ok r ->
  exists calc' db',
    Main.update_calculation UUID_of db user calc_id
      {| Schemas.type := t; Schemas.inputs := Some v |} utcnow = (Returned calc', db') /\
    In calc' db' /\
    type calc' = type calc /\ inputs calc' = v /\
    compute_result (type calc') (inputs calc') = Ok (result calc') /\
    updated_at calc' = utcnow.
Proof.
  intros Hid Hfirst Hr.
  unfold Main.update_calculation. rewrite Hid, Hfirst. cbn [Schemas.inputs].
  unfold get_result. cbn [type inputs with_inputs]. rewrite Hr. cbn [bind].
  eexists. eexists. split; [reflexivity|]. simpl. conjs; auto.
  apply replace_first_In. exists calc. now apply first_filter_Some.
Qed.

(** C2 on the PUT route of app/main.py.  The update [to_subtraction] passes
    the schema and names a new tag only.  The route answers with the row
    still tagged addition and still holding the result 3 (only the update time
    changes), whereas subtraction of the stored inputs gives -1: the result
    is not recomputed for the new tag.  The updated PUT route stores the new
    tag with the result -1. *)
Theorem main_update_ignores_new_type :
  Schemas.valid to_subtraction = true /\
  compute_result "addition" (inputs addition_row) = Ok (result addition_row) /\
  Main.update_calculation digit_UUID [addition_row] 1%N "1" to_subtraction 99
  = (Returned stale_row, [stale_row]) /\
  type stale_row = "addition" /\
  compute_result "subtraction" (inputs stale_row) = Ok (num (-1)) /\
  result stale_row <> num (-1) /\
  Patched.update_calculation digit_UUID [addition_row] 1%N "1" to_subtraction 99
  = (Returned fresh_row, [fresh_row]).
Proof.
  conjs.
  - reflexivity.
  - eval_ok.
  - reflexivity.
  - reflexivity.
  - eval_ok.
  - simpl. intros H. apply (f_equal this) in H. vm_compute in H. discriminate.
  - unfold Patched.update_calculation.
    change (digit_UUID "1") with (Some 1%N). cbv beta iota.
    change (first (filter (is_calc_of 1%N 1%N) [addition_row])) with (Some addition_row).
    cbv beta iota zeta.
    assert (Hr : compute_result
                   (Patched.or_type (Schemas.type to_subtraction) (type addition_row))
                   (Patched.or_inputs (Schemas.inputs to_subtraction) (inputs addition_row))
                 = Ok (num (-1))) by eval_ok.
    rewrite Hr. reflexivity.
Qed.

(** *** Ownership *)

Lemma unique_id (db : Session) (a b : Calculation) :
  NoDup (map id db) -> In a db -> In b db -> id a = id b -> a = b.
Proof.
  induction db as [|c db IH]; simpl; intros Hnd Ha Hb Hid; [contradiction|].
  inversion Hnd as [|x l Hnotin Hnd']; subst.
  destruct Ha as [->|Ha], Hb as [->|Hb]; auto.
  - exfalso. apply Hnotin. rewrite Hid. now apply in_map.
  - exfalso. apply Hnotin. rewrite <- Hid. now apply in_map.
Qed.

Lemma filter_within {A : Type} (p f : A -> bool) (l : list A) :
  (forall x, p x = true -> f x = true) -> filter p (filter f l) = filter p l.
Proof.
  intros H. rewrite filter_filter. apply filter_ext. intros x.
  destruct (p x) eqn:Hp; [now rewrite (H x Hp) | apply andb_false_r].
Qed.

(** A row of another user is not selected by the query of the routes. *)
Lemma foreign_row_not_selected (db : Session) (caller : UUID) (r : Calculation) :
  NoDup (map id db) -> In r db -> user_id r <> caller ->
  filter (is_calc_of (id r) caller) db = [].
Proof.
  intros Hnd Hr Hforeign. apply filter_nil_iff. intros c Hc.
  unfold is_calc_of. destruct (N.eqb_spec (id c) (id r)) as [Hid|]; [|reflexivity].
  rewrite (unique_id db c r Hnd Hc Hr Hid). simpl. now apply N.eqb_neq.
Qed.

Lemma absent_row_not_selected (db : Session) (caller calc_uuid : UUID) :
  filter (is_calc_of calc_uuid caller) (without calc_uuid db) = [].
Proof.
  apply filter_nil_iff. intros c Hc. apply filter_In in Hc as [_ Hc].
  unfold is_calc_of. apply negb_true_iff in Hc. now rewrite Hc.
Qed.

(** Leaving out a row of another user leaves the caller's rows as they are. *)
Lemma own_rows_without (db : Session) (caller : UUID) (r : Calculation) :
  NoDup (map id db) -> In r db -> user_id r <> caller ->
  filter (owned_by caller) (without (id r) db) = filter (owned_by caller) db.
Proof.
  intros Hnd Hr Hforeign. unfold without. rewrite filter_filter.
  apply filter_ext_in. intros c Hc.
  destruct (owned_by caller c) eqn:Hown; [|apply andb_false_r].
  rewrite andb_true_r. apply negb_true_iff, N.eqb_neq. intros Hid.
  apply owned_by_iff in Hown. apply Hforeign.
  now rewrite <- (unique_id db c r Hnd Hc Hr Hid).
Qed.

(** The aggregations read the rows of the given user only. *)
Lemma calculate_user_statistics_own
    (date : datetime -> string) (db : Session) (user : UUID) (now : datetime) :
  calculate_user_statistics date (filter (owned_by user) db) user now
  = calculate_user_statistics date db user now.
Proof.
  unfold calculate_user_statistics, get_calculations_by_day.
  rewrite !filter_within; [reflexivity | | auto].
  intros c H. apply andb_prop in H as [H _]. now apply andb_prop in H as [H _].
Qed.

Lemma get_paginated_history_own
    (db : Session) (user : UUID) (page page_size : Z) (operation_filter : option string) :
  get_paginated_history (filter (owned_by user) db) user page page_size operation_filter
  = get_paginated_history db user page page_size operation_filter.
Proof.
  unfold get_paginated_history, history_query.
  rewrite !filter_within; auto.
Qed.

Lemma get_operation_statistics_own (db : Session) (user : UUID) (operation : string) :
  get_operation_statistics (filter (owned_by user) db) user operation
  = get_operation_statistics db user operation.
Proof.
  unfold get_operation_statistics.
  rewrite !filter_within; [reflexivity|].
  intros c H. now apply andb_prop in H as [H _].
Qed.

(** C7.  In a table with unique identifiers, let a row belong to a user other
    than the caller, and let the caller name its identifier.  Then reading,
    updating (by either PUT route) and deleting answer 404 "Calculation not
    found." and leave the table as it is; these are the answers given when
    the table holds no row of that identifier; and every answer the caller
    gets, from the three routes and from the three aggregations, is the one
    given on the table without that row. *)
Theorem ownership_isolation
    (UUID_of : string -> option UUID) (date : datetime -> string)
    (db : Session) (caller : UUID) (calc_id : string) (r : Calculation)
    (upd : Schemas.CalculationUpdate) (now : datetime)
    (page page_size : Z) (operation_filter : option string) (operation : string) :
  NoDup (map id db) ->
  In r db ->
  user_id r <> caller ->
  UUID_of calc_id = Some (id r) ->
  Main.get_calculation UUID_of db caller calc_id = NotFound /\
  Main.update_calculation UUID_of db caller calc_id upd now = (NotFound, db) /\
  Patched.update_calculation UUID_of db caller calc_id upd now = (NotFound, db) /\
  Main.delete_calculation UUID_of db caller calc_id = (NotFound, db) /\
  (forall db0 : Session,
     (forall c, In c db0 -> id c <> id r) ->
     Main.get_calculation UUID_of db0 caller calc_id = NotFound /\
     Main.update_calculation UUID_of db0 caller calc_id upd now = (NotFound, db0) /\
     Patched.update_calculation UUID_of db0 caller calc_id upd now = (NotFound, db0) /\
     Main.delete_calculation UUID_of db0 caller calc_id = (NotFound, db0)) /\
  ~ In r (without (id r) db) /\
  view_of UUID_of date db caller calc_id upd now
          page page_size operation_filter operation
  = view_of UUID_of date (without (id r) db) caller calc_id upd now
            page page_size operation_filter operation.
Proof.
  intros Hnd Hr Hforeign Hid.
  pose proof (foreign_row_not_selected db caller r Hnd Hr Hforeign) as Hsel.
  pose proof (absent_row_not_selected db caller (id r)) as Habs.
  pose proof (own_rows_without db caller r Hnd Hr Hforeign) as Hown.
  unfold view_of, Main.get_calculation, Main.update_calculation,
    Patched.update_calculation, Main.delete_calculation.
  rewrite Hid, Hsel, Habs. cbn [first hd_error fst].
  conjs; try reflexivity.
  - intros db0 Hnone.
    assert (H0 : filter (is_calc_of (id r) caller) db0 = []).
    { apply filter_nil_iff. intros c Hc. unfold is_calc_of.
      apply Hnone in Hc. apply N.eqb_neq in Hc. now rewrite Hc. }
    rewrite H0. cbn [first hd_error]. conjs; reflexivity.
  - unfold without. rewrite filter_In. intros [_ H].
    rewrite N.eqb_refl in H. discriminate.
  - rewrite <- (calculate_user_statistics_own date db),
            <- (calculate_user_statistics_own date (without (id r) db)),
            <- (get_paginated_history_own db),
            <- (get_paginated_history_own (without (id r) db)),
            <- (get_operation_statistics_own db),
            <- (get_operation_statistics_own (without (id r) db)).
    now rewrite Hown.
Qed.

Lemma ownership_isolation_witness :
  NoDup (map id mixed_db) /\ In foreign_row mixed_db /\ user_id foreign_row <> 1%N /\
  digit_UUID "3" = Some (id foreign_row) /\
  Main.get_calculation digit_UUID mixed_db 1%N "3" = NotFound /\
  Main.delete_calculation digit_UUID mixed_db 1%N "3" = (NotFound, mixed_db).
Proof.
  assert (Hnd : NoDup (map id mixed_db)).
  { simpl. repeat constructor; simpl; intros H;
      repeat (destruct H as [H|H]; [discriminate|]); exact H. }
  assert (Hin : In foreign_row mixed_db).
  { simpl. right. right. left. reflexivity. }
  split; [exact Hnd|]. split; [exact Hin|]. split; [simpl; discriminate|].
  split; [reflexivity|].
  destruct (ownership_isolation digit_UUID one_day
              mixed_db 1%N "3" foreign_row to_subtraction 50 1 10 None "addition"
              Hnd Hin ltac:(simpl; discriminate) eq_refl)
    as (Hget & _ & _ & Hdel & _).
  split; [exact Hget | exact Hdel].
Defined.

End RoutesFacts.

(** * Further properties of the code *)

(** ** The arithmetic engine *)

Module EngineFacts.

Import CalcUtils Spec Terms CalcUtilsFacts.

Local Open Scope Qc_scope.

Lemma recognized_dec (calc_type : string) : recognized calc_type \/ ~ recognized calc_type.
Proof.
  unfold recognized, tag_is.
  destruct (string_dec (lower calc_type) (lower "addition")); [tauto|].
  destruct (string_dec (lower calc_type) (lower "subtraction")); [tauto|].
  destruct (string_dec (lower calc_type) (lower "multiplication")); [tauto|].
  destruct (string_dec (lower calc_type) (lower "division")); tauto.
Qed.

Lemma zero_divisor_dec (inputs : list Qc) : zero_divisor inputs \/ ~ zero_divisor inputs.
Proof.
  destruct inputs as [|x0 rest].
  - right. intros (i & Hi & Hnth). destruct i; [lia|discriminate].
  - rewrite zero_divisor_existsb. destruct (existsb is_zero rest); [now left|right; discriminate].
Qed.

(** For a tag other than division, at least two inputs always compute. *)
Lemma compute_result_total (calc_type : string) (inputs : list Qc) :
  (2 <= List.length inputs)%nat -> recognized calc_type ->
  ~ tag_is calc_type "division" ->
  exists r, compute_result calc_type inputs = Ok r.
Proof.
  intros Hlen Hrec Hdiv. destruct (two_inputs inputs Hlen) as (x0 & x1 & rest & ->).
  rewrite compute_result_long. cbv zeta.
  destruct Hrec as [H|[H|[H|H]]]; [| | |contradiction]; unfold tag_is in H;
    rewrite H; simpl String.eqb; cbv iota; eexists; reflexivity.
Qed.

Lemma compute_result_outcome (calc_type : string) (inputs : list Qc) :
  ((exists r, compute_result calc_type inputs = Ok r) <->
   (2 <= List.length inputs)%nat /\ recognized calc_type /\
   (tag_is calc_type "division" -> ~ zero_divisor inputs)) /\
  (forall e, compute_result calc_type inputs = Err e ->
     e = InvalidInput \/ e = DivisionByZero \/ e = UnsupportedOperation calc_type).
Proof.
  destruct (Nat.lt_ge_cases (List.length inputs) 2) as [Hlt|Hge].
  { rewrite (compute_result_short _ _ Hlt). split.
    - split; [intros (r & Hr); discriminate | intros (H & _); lia].
    - intros e He. left. congruence. }
  destruct (recognized_dec calc_type) as [Hrec|Hrec].
  2:{ rewrite (compute_result_unsupported _ _ Hge Hrec). split.
      - split; [intros (r & Hr); discriminate | intros (_ & H & _); contradiction].
      - intros e He. right. right. congruence. }
  destruct (string_dec (lower calc_type) (lower "division")) as [Hdiv|Hdiv].
  - destruct (two_inputs inputs Hge) as (x0 & x1 & rest & ->).
    rewrite (compute_result_division _ _ _ _ Hdiv).
    rewrite zero_divisor_existsb.
    destruct (existsb is_zero (x1 :: rest)) eqn:Hz.
    + rewrite (div_loop_err _ _ Hz). split.
      * split; [intros (r & Hr); discriminate|].
        intros (_ & _ & H). exfalso. now apply (H Hdiv).
      * intros e He. right. left. congruence.
    + rewrite (div_loop_ok _ _ Hz). split.
      * split; [|intros _; eexists; reflexivity].
        intros _. split; [exact Hge|]. split; [exact Hrec|]. intros _. discriminate.
      * intros e He. discriminate.
  - destruct (compute_result_total _ _ Hge Hrec Hdiv) as (r & Hr). rewrite Hr. split.
    + split; [|intros _; now exists r].
      intros _. split; [exact Hge|]. split; [exact Hrec|].
      intros H. contradiction.
    + intros e He. discriminate.
Qed.

(** X1.  [compute_result] returns a number exactly when there are at least
    two inputs, the tag is one of the four up to case, and, for division, no
    input after the first is zero; and whenever it fails, the error is the
    too-few-inputs error, the division-by-zero error or the
    unsupported-operation error naming the tag as given. *)
Theorem compute_result_succeeds_iff (calc_type : string) (inputs : list Qc) :
  ((exists r, compute_result calc_type inputs = Ok r) <->
   (2 <= List.length inputs)%nat /\ recognized calc_type /\
   (tag_is calc_type "division" -> ~ zero_divisor inputs)) /\
  (forall e, compute_result calc_type inputs = Err e ->
     e = InvalidInput \/ e = DivisionByZero \/ e = UnsupportedOperation calc_type).
Proof.
  destruct (Nat.lt_ge_cases (List.length inputs) 2) as [Hlt|Hge].
  { rewrite (compute_result_short _ _ Hlt). split.
    - split; [intros (r & Hr); discriminate | intros (H & _); lia].
    - intros e He. left. congruence. }
  destruct (recognized_dec calc_type) as [Hrec|Hrec].
  2:{ rewrite (compute_result_unsupported _ _ Hge Hrec). split.
      - split; [intros (r & Hr); discriminate | intros (_ & H & _); contradiction].
      - intros e He. right. right. congruence. }
  destruct (string_dec (lower calc_type) (lower "division")) as [Hdiv|Hdiv].
  - destruct (two_inputs inputs Hge) as (x0 & x1 & rest & ->).
    rewrite (compute_result_division _ _ _ _ Hdiv).
    rewrite zero_divisor_existsb.
    destruct (existsb is_zero (x1 :: rest)) eqn:Hz.
    + rewrite (div_loop_err _ _ Hz). split.
      * split; [intros (r & Hr); discriminate|].
        intros (_ & _ & H). exfalso. now apply (H Hdiv).
      * intros e He. right. left. congruence.
    + rewrite (div_loop_ok _ _ Hz). split.
      * split; [|intros _; eexists; reflexivity].
        intros _. split; [exact Hge|]. split; [exact Hrec|]. intros _. discriminate.
      * intros e He. discriminate.
  - destruct (compute_result_total _ _ Hge Hrec Hdiv) as (r & Hr). rewrite Hr. split.
    + split; [|intros _; now exists r].
      intros _. split; [exact Hge|]. split; [exact Hrec|].
      intros H. contradiction.
    + intros e He. discriminate.
Qed.

Lemma compute_result_succeeds_iff_witness :
  ((2 <= List.length [num 8; num 2])%nat /\ recognized "Division" /\
   (tag_is "Division" "division" -> ~ zero_divisor [num 8; num 2])) /\
  exists r, compute_result "Division" [num 8; num 2] = Ok r.
Proof.
  assert (H : (2 <= List.length [num 8; num 2])%nat /\ recognized "Division" /\
              (tag_is "Division" "division" -> ~ zero_divisor [num 8; num 2])).
  { split; [simpl; lia|]. split; [right; right; right; reflexivity|].
    intros _. rewrite zero_divisor_existsb. simpl. discriminate. }
  split; [exact H|].
  apply (proj2 (proj1 (compute_result_succeeds_iff "Division" [num 8; num 2])) H).
Defined.















Lemma lower_tag_eqb (t t' tag : string) :
  lower t = lower t' -> String.eqb (lower t) tag = String.eqb (lower t') tag.
Proof. now intros ->. Qed.

(** X5.  The spelling of the tag matters up to case only: two tags that are
    equal up to case give the same answer on the same inputs, provided the
    tag is one of the four or there are fewer than two inputs (the
    unsupported-operation error quotes the tag as given). *)
Theorem compute_result_case_insensitive
    (calc_type calc_type' : string) (inputs : list Qc) :
  lower calc_type = lower calc_type' ->
  recognized calc_type \/ (List.length inputs < 2)%nat ->
  compute_result calc_type inputs = compute_result calc_type' inputs.
Proof.
  intros Hlow [Hrec|Hlt].
  - unfold compute_result. rewrite <- Hlow.
    destruct (List.length inputs <? 2)%nat; [reflexivity|].
    cbv zeta.
    destruct Hrec as [H|[H|[H|H]]]; unfold tag_is in H; rewrite H; reflexivity.
  - now rewrite !compute_result_short.
Qed.

Lemma compute_result_case_insensitive_witness :
  lower "DiViSiOn" = lower "division" /\
  (recognized "DiViSiOn" \/ (List.length [num 9; num 3] < 2)%nat) /\
  compute_result "DiViSiOn" [num 9; num 3] = compute_result "division" [num 9; num 3].
Proof.
  split; [reflexivity|]. split; [left; right; right; right; reflexivity|].
  apply compute_result_case_insensitive; [reflexivity|].
  left. right. right. right. reflexivity.
Defined.

End EngineFacts.

(** ** Pages of the history *)

Module HistoryFacts.

Import CalcUtils Builtins Statistics Spec Samples Terms CalcUtilsFacts StatisticsFacts.

Local Open Scope Z_scope.

Lemma calculations_of_page
    (db : Session) (user : UUID) (page page_size : Z) (operation_filter : option string) :
  1 <= page -> 1 <= page_size <= 100 ->
  calculations_of (get_paginated_history db user page page_size operation_filter)
  = map history_item
      (limit page_size
         (offset ((page - 1) * page_size)
            (order_by_created_at_desc (matching db user operation_filter)))).
Proof.
  intros Hp Hps. now rewrite get_paginated_history_in_bounds.
Qed.

Lemma count_order_by (rows : list Calculation) :
  count (order_by_created_at_desc rows) = count rows.
Proof.
  unfold count. f_equal. apply Permutation_length, order_by_created_at_desc_perm.
Qed.

Lemma total_pages_bounds (total page_size : Z) :
  0 <= total -> 0 < page_size ->
  let tp := if total =? 0 then 0 else ceiling_div total page_size in
  (tp - 1) * page_size < total <= tp * page_size.
Proof.
  intros Ht Hps. cbv zeta. destruct (Z.eqb_spec total 0) as [->|Hnz]; [lia|].
  rewrite <- ceiling_div_formula by exact Hps.
  pose proof (Z.div_mod (total + page_size - 1) page_size ltac:(lia)) as Hdm.
  pose proof (Z.mod_pos_bound (total + page_size - 1) page_size Hps) as Hb.
  nia.
Qed.

(** X6.  Within the bounds on page and page size, the history answer tells
    the number of selected rows and a number of pages [tp] with
    (tp-1)*page_size < total <= tp*page_size; the page holds at least one row
    exactly when page <= tp, holds page_size rows when page < tp, and the
    remaining rows when page = tp.  A page after the last one is an empty
    list, not an error. *)
Theorem history_page_bounds
    (db : Session) (user : UUID) (page page_size : Z) (operation_filter : option string) :
  1 <= page -> 1 <= page_size <= 100 ->
  let total := count (matching db user operation_filter) in
  let answer := get_paginated_history db user page page_size operation_filter in
  exists (d : value) (tp : Z),
    answer = Ok d /\
    get d "total" = Some (VInt total) /\
    get d "total_pages" = Some (VInt tp) /\
    (tp - 1) * page_size < total <= tp * page_size /\
    (calculations_of answer <> [] <-> page <= tp) /\
    (page < tp -> count (calculations_of answer) = page_size) /\
    (page = tp -> count (calculations_of answer) = total - (tp - 1) * page_size).
Proof.
  intros Hp Hps total answer.
  assert (Hnn : 0 <= total) by (unfold total, count; lia).
  pose proof (total_pages_bounds total page_size Hnn ltac:(lia)) as Htp. cbv zeta in Htp.
  assert (Hlen : count (calculations_of answer)
                 = Z.min page_size (Z.max 0 (total - (page - 1) * page_size))).
  { unfold answer. rewrite calculations_of_page by assumption.
    rewrite count_map, page_length by lia. now rewrite count_order_by. }
  eexists. exists (if total =? 0 then 0 else ceiling_div total page_size).
  split; [unfold answer; now apply get_paginated_history_in_bounds|].
  split; [reflexivity|]. split; [reflexivity|]. split; [exact Htp|].
  set (tp := if total =? 0 then 0 else ceiling_div total page_size) in *.
  assert (Hempty : calculations_of answer = [] <-> count (calculations_of answer) = 0).
  { unfold count. destruct (calculations_of answer); simpl; split; intros H;
      try reflexivity; try discriminate; lia. }
  conjs.
  - split.
    + intros Hne. destruct (Z.le_gt_cases page tp) as [|Hgt]; [assumption|].
      exfalso. apply Hne, Hempty. nia.
    + intros Hle Hnil. apply Hempty in Hnil. nia.
  - intros Hlt. nia.
  - intros ->. lia.
Qed.

Lemma history_page_bounds_witness :
  1 <= 4 /\ 1 <= 10 <= 100 /\
  exists (d : value) (tp : Z),
    get_paginated_history sample_db 1%N 4 10 None = Ok d /\
    get d "total_pages" = Some (VInt tp) /\
    (calculations_of (get_paginated_history sample_db 1%N 4 10 None) <> [] <-> 4 <= tp).
Proof.
  split; [lia|]. split; [lia|].
  destruct (history_page_bounds sample_db 1%N 4 10 None ltac:(lia) ltac:(lia))
    as (d & tp & Hd & _ & Htp & _ & Hne & _).
  exists d, tp. conjs; assumption.
Defined.







End HistoryFacts.

(** ** The user summary on a user with calculations *)

Module SummaryFacts.

Import CalcUtils Builtins Statistics Spec Samples Terms CalcUtilsFacts StatisticsFacts.

Local Open Scope Z_scope.

(** *** Counting with a dictionary *)

Lemma assoc_set (k k' : string) (v : Z) (d : list (string * Z)) :
  assoc k' (Dict.set k v d) = if String.eqb k k' then Some v else assoc k' d.
Proof.
  induction d as [|[k0 w] d IH]; simpl.
  - reflexivity.
  - destruct (String.eqb_spec k0 k) as [->|Hne]; simpl.
    + now destruct (String.eqb k k').
    + rewrite IH. destruct (String.eqb_spec k0 k') as [->|Hne'].
      * destruct (String.eqb_spec k k'); [congruence|reflexivity].
      * reflexivity.
Qed.

Lemma get_default_incr (k k' : string) (d : list (string * Z)) :
  Dict.get_default k' 0 (Dict.incr k d)
  = Dict.get_default k' 0 d + (if String.eqb k k' then 1 else 0).
Proof.
  unfold Dict.incr. unfold Dict.get_default at 1. rewrite assoc_set.
  destruct (String.eqb_spec k k') as [->|Hne]; cbv iota; [lia|].
  unfold Dict.get_default. lia.
Qed.

Lemma tally_nonneg (k : string) (keys : list string) : 0 <= tally k keys.
Proof. unfold tally, count. lia. Qed.

Lemma tally_cons (k x : string) (keys : list string) :
  tally k (x :: keys) = (if String.eqb x k then 1 else 0) + tally k keys.
Proof.
  unfold tally, count. cbn [filter]. rewrite (String.eqb_sym k x).
  destruct (String.eqb x k); cbn [List.length]; lia.
Qed.

Lemma get_default_fold_incr (keys : list string) :
  forall (d : list (string * Z)) (k : string),
    Dict.get_default k 0 (fold_left (fun d x => Dict.incr x d) keys d)
    = Dict.get_default k 0 d + tally k keys.
Proof.
  induction keys as [|x keys IH]; intros d k; simpl.
  - unfold tally, count. simpl. lia.
  - rewrite IH, get_default_incr, tally_cons. lia.
Qed.

Lemma assoc_fold_incr (keys : list string) :
  forall (d : list (string * Z)) (k : string),
    assoc k (fold_left (fun d x => Dict.incr x d) keys d)
    = if tally k keys =? 0 then assoc k d
      else Some (Dict.get_default k 0 d + tally k keys).
Proof.
  induction keys as [|x keys IH]; intros d k; simpl.
  - reflexivity.
  - rewrite IH, tally_cons, get_default_incr.
    pose proof (tally_nonneg k keys) as Hnn.
    unfold Dict.incr at 1. rewrite assoc_set.
    destruct (String.eqb_spec x k) as [->|Hne];
      destruct (Z.eqb_spec (tally k keys) 0) as [Hz|Hz];
      match goal with |- context [?a =? 0] => destruct (Z.eqb_spec a 0) end;
      try lia; try reflexivity; f_equal; lia.
Qed.

Lemma in_keys_set (k x : string) (v : Z) (d : list (string * Z)) :
  In x (map fst (Dict.set k v d)) <-> x = k \/ In x (map fst d).
Proof.
  induction d as [|[k0 w] d IH]; simpl.
  - intuition congruence.
  - destruct (String.eqb_spec k0 k) as [->|Hne]; simpl.
    + intuition congruence.
    + rewrite IH. intuition congruence.
Qed.

Lemma NoDup_keys_set (k : string) (v : Z) (d : list (string * Z)) :
  NoDup (map fst d) -> NoDup (map fst (Dict.set k v d)).
Proof.
  induction d as [|[k0 w] d IH]; simpl; intros Hnd.
  - repeat constructor. intros [].
  - inversion Hnd as [|x l Hnotin Hnd']; subst.
    destruct (String.eqb_spec k0 k) as [->|Hne]; simpl.
    + now constructor.
    + constructor; [|now apply IH].
      rewrite in_keys_set. intros [Heq|Hin]; [congruence|contradiction].
Qed.

Lemma NoDup_keys_fold_incr (keys : list string) :
  forall d : list (string * Z),
    NoDup (map fst d) -> NoDup (map fst (fold_left (fun d x => Dict.incr x d) keys d)).
Proof.
  induction keys as [|x keys IH]; intros d Hnd; simpl; [exact Hnd|].
  apply IH. now apply NoDup_keys_set.
Qed.

Lemma entries_total_incr (k : string) (d : list (string * Z)) :
  entries_total (Dict.incr k d) = entries_total d + 1.
Proof.
  unfold Dict.incr, Dict.get_default.
  induction d as [|[k0 w] d IH]; simpl.
  - lia.
  - destruct (String.eqb_spec k0 k) as [->|Hne]; simpl; [lia|].
    rewrite IH. lia.
Qed.

Lemma entries_total_fold_incr (keys : list string) :
  forall d : list (string * Z),
    entries_total (fold_left (fun d x => Dict.incr x d) keys d)
    = entries_total d + count keys.
Proof.
  induction keys as [|x keys IH]; intros d; simpl.
  - unfold count. simpl. lia.
  - rewrite IH, entries_total_incr. unfold count. cbn [List.length]. lia.
Qed.

Lemma fold_left_keys {A : Type} (f : A -> string) (rows : list A) :
  forall d : list (string * Z),
    fold_left (fun d c => Dict.incr (f c) d) rows d
    = fold_left (fun d x => Dict.incr x d) (map f rows) d.
Proof.
  induction rows as [|c rows IH]; intros d; simpl; [reflexivity|]. apply IH.
Qed.

Lemma tally_map {A : Type} (f : A -> string) (k : string) (rows : list A) :
  tally k (map f rows) = count (filter (fun c => String.eqb (f c) k) rows).
Proof.
  induction rows as [|c rows IH]; [reflexivity|].
  cbn [map]. rewrite tally_cons, IH. unfold count. cbn [filter].
  destruct (String.eqb (f c) k); cbn [List.length]; lia.
Qed.

(** *** The loop and the answer on a user with rows *)

Lemma breakdown_loop_acc (rows : list Calculation) :
  forall (bd : list (string * Z)) (rs : Qc) (ics : Z),
    fold_left
      (fun '(operations_breakdown, result_sum, inputs_count_sum) calc =>
         let operation := lower (type calc) in
         (Dict.incr operation operations_breakdown,
          (result_sum + result calc)%Qc,
          (inputs_count_sum + count (inputs calc))%Z))
      rows (bd, rs, ics)
    = (fold_left (fun d c => Dict.incr (lower (type c)) d) rows bd,
       fold_left Qcplus (map result rows) rs,
       fold_left Z.add (map (fun c => count (inputs c)) rows) ics).
Proof.
  induction rows as [|c rows IH]; intros bd rs ics; simpl; [reflexivity|]. apply IH.
Qed.

Lemma breakdown_loop_eq (rows : list Calculation) :
  breakdown_loop rows
  = (fold_left (fun d c => Dict.incr (lower (type c)) d) rows [],
     py_sum (map result rows),
     int_sum (map (fun c => count (inputs c)) rows)).
Proof. apply breakdown_loop_acc. Qed.

Lemma count_zero_nil {A : Type} (l : list A) : count l = 0 <-> l = [].
Proof.
  unfold count. destruct l; simpl; split; intros H; try reflexivity; try discriminate; lia.
Qed.

Lemma calculate_user_statistics_some
    (date : datetime -> string) (db : Session) (user : UUID) (now : datetime) :
  rows_of db user <> [] ->
  calculate_user_statistics date db user now
  = let rows := rows_of db user in
    let bd := fold_left (fun d c => Dict.incr (lower (type c)) d) rows [] in
    VDict [ ("total_calculations", VInt (count rows));
            ("operations_breakdown", Dict.to_value bd);
            ("average_inputs_count", VFloat (round2 (mean (map inputs_count rows))));
            ("average_result", VFloat (round2 (mean (map result rows))));
            ("most_used_operation",
             match bd with
             | kv :: items => VStr (fst (Dict.max_by_count kv items))
             | [] => VNone
             end);
            ("recent_calculations",
             VList (map recent_item (limit 10 (order_by_created_at_desc rows))));
            ("calculations_by_day",
             Dict.to_value (get_calculations_by_day date db user 30 now)) ].
Proof.
  intros Hsome. unfold calculate_user_statistics. fold (rows_of db user).
  destruct (Z.eqb_spec (count (rows_of db user)) 0) as [Hz|_].
  { now apply count_zero_nil in Hz. }
  rewrite breakdown_loop_eq. cbv zeta. unfold mean.
  rewrite true_div_num, int_sum_num, py_sum_sum_of, map_map, !count_map.
  reflexivity.
Qed.

Lemma tagged_rows_of (db : Session) (user : UUID) (k : string) :
  filter (fun c => String.eqb (lower (type c)) k) (rows_of db user) = tagged db user k.
Proof. unfold rows_of, tagged. apply filter_filter. Qed.

(** The counts held by the breakdown of a user's rows. *)
Lemma breakdown_counts (db : Session) (user : UUID) :
  let bd := fold_left (fun d c => Dict.incr (lower (type c)) d) (rows_of db user) [] in
  NoDup (map fst bd) /\
  (forall k, assoc k bd
             = if count (tagged db user k) =? 0 then None
               else Some (count (tagged db user k))) /\
  (forall k, Dict.get_default k 0 bd = count (tagged db user k)) /\
  entries_total bd = count (rows_of db user).
Proof.
  cbv zeta. rewrite fold_left_keys. conjs.
  - apply NoDup_keys_fold_incr. constructor.
  - intros k. rewrite assoc_fold_incr, tally_map, tagged_rows_of. reflexivity.
  - intros k. rewrite get_default_fold_incr, tally_map, tagged_rows_of. reflexivity.
  - rewrite entries_total_fold_incr, count_map. reflexivity.
Qed.

(** X8.  For a user with at least one calculation, the summary holds the
    number of the user's rows and a breakdown with one entry per tag that
    occurs (tags compared up to case and stored in lower case, no key twice):
    the entry of a tag is the number of the user's rows with that tag, a tag
    without rows has no entry, and the entries add up to the total. *)
Theorem operations_breakdown_counts
    (date : datetime -> string) (db : Session) (user : UUID) (now : datetime) :
  rows_of db user <> [] ->
  exists bd : list (string * Z),
    get (calculate_user_statistics date db user now) "total_calculations"
    = Some (VInt (count (rows_of db user))) /\
    get (calculate_user_statistics date db user now) "operations_breakdown"
    = Some (Dict.to_value bd) /\
    NoDup (map fst bd) /\
    (forall k, assoc k bd
               = if count (tagged db user k) =? 0 then None
                 else Some (count (tagged db user k))) /\
    entries_total bd = count (rows_of db user).
Proof.
  intros Hsome. rewrite (calculate_user_statistics_some date db user now Hsome).
  destruct (breakdown_counts db user) as (Hnd & Hassoc & _ & Htotal).
  eexists. split; [reflexivity|]. split; [reflexivity|]. conjs; assumption.
Qed.

Lemma operations_breakdown_counts_witness :
  rows_of mixed_db 1%N <> [] /\
  exists bd : list (string * Z),
    get (calculate_user_statistics one_day mixed_db 1%N 50) "operations_breakdown"
    = Some (Dict.to_value bd) /\
    assoc "addition" bd = Some 2 /\ assoc "division" bd = Some 1 /\
    assoc "subtraction" bd = None.
Proof.
  split; [discriminate|].
  destruct (operations_breakdown_counts one_day mixed_db 1%N 50 ltac:(discriminate))
    as (bd & _ & Hbd & _ & Hassoc & _).
  exists bd. split; [exact Hbd|]. rewrite !Hassoc. conjs; reflexivity.
Defined.

(** *** The most used operation *)






(** *** Averages and recent rows *)





(** *** Counts by day *)

Lemma recent_rows_filter (db : Session) (user : UUID) (now : datetime) (days : Z) :
  filter (fun c => owned_by user c
                   && (now - timedelta_days days <=? created_at c)
                   && (created_at c <=? now)) db
  = recent_rows db user now days.
Proof.
  unfold recent_rows, in_window. apply filter_ext. intros c. now rewrite andb_assoc.
Qed.

(** X12.  [get_calculations_by_day] counts the rows of the user created from
    [days] days before the given time up to that time, both ends included:
    the entry of a date is the number of these rows with that date, a date
    without such a row has no entry, no date occurs twice, and the entries
    add up to the number of these rows.  Rows of other users and rows
    outside the window are not counted, and a negative number of days gives
    the empty dictionary. *)
Theorem calculations_by_day_counts
    (date : datetime -> string) (db : Session) (user : UUID) (days : Z)
    (now : datetime) :
  let by_day := get_calculations_by_day date db user days now in
  let window := recent_rows db user now days in
  NoDup (map fst by_day) /\
  (forall key,
     let n := count (filter (fun c => String.eqb (date (created_at c)) key) window) in
     assoc key by_day = if n =? 0 then None else Some n) /\
  entries_total by_day = count window /\
  (forall c, In c window <->
             In c db /\ user_id c = user /\
             now - days * 86400000000 <= created_at c <= now) /\
  (days < 0 -> by_day = []).
Proof.
  cbv zeta. unfold get_calculations_by_day. cbv zeta.
  rewrite recent_rows_filter, fold_left_keys. conjs.
  - apply NoDup_keys_fold_incr. constructor.
  - intros key. rewrite assoc_fold_incr, tally_map. reflexivity.
  - rewrite entries_total_fold_incr, count_map. reflexivity.
  - intros c. unfold recent_rows, in_window, timedelta_days.
    rewrite filter_In, !andb_true_iff, owned_by_iff, !Z.leb_le. tauto.
  - intros Hneg. replace (recent_rows db user now days) with (@nil Calculation);
      [reflexivity|].
    symmetry. apply filter_nil_iff. intros c _.
    unfold in_window, timedelta_days.
    destruct (Z.leb_spec (now - days * 86400000000) (created_at c));
      destruct (Z.leb_spec (created_at c) now); try lia;
      now rewrite ?andb_false_r.
Qed.

Lemma calculations_by_day_counts_witness :
  -1 < 0 /\ get_calculations_by_day one_day mixed_db 1%N (-1) 50 = [].
Proof.
  split; [lia|].
  apply (proj2 (proj2 (proj2 (proj2
    (calculations_by_day_counts one_day mixed_db 1%N (-1) 50))))).
  lia.
Defined.

(** *** The operation summary against the user summary *)

Lemma get_operation_statistics_count (db : Session) (user : UUID) (operation : string) :
  get (get_operation_statistics db user operation) "count"
  = Some (VInt (count (of_operation db user operation))).
Proof.
  unfold get_operation_statistics.
  change (filter (fun c => owned_by user c && type_is operation c) db)
    with (of_operation db user operation).
  now destruct (of_operation db user operation).
Qed.

(** X13.  The two aggregations agree: the count that
    [get_operation_statistics] reports for an operation is the entry of that
    operation, in lower case, in the breakdown of the user summary, and 0
    when the breakdown has no such entry. *)
Theorem operation_count_matches_breakdown
    (date : datetime -> string) (db : Session) (user : UUID) (now : datetime) :
  exists bd : list (string * Z),
    get (calculate_user_statistics date db user now) "operations_breakdown"
    = Some (Dict.to_value bd) /\
    forall operation,
      get (get_operation_statistics db user operation) "count"
      = Some (VInt (Dict.get_default (lower operation) 0 bd)).
Proof.
  destruct (rows_of db user) as [|c rows] eqn:Hrows.
  - exists []. split.
    + unfold calculate_user_statistics. fold (rows_of db user). now rewrite Hrows.
    + intros operation. rewrite get_operation_statistics_count.
      replace (of_operation db user operation) with (@nil Calculation); [reflexivity|].
      symmetry. unfold of_operation. rewrite <- filter_filter.
      fold (rows_of db user). now rewrite Hrows.
  - assert (Hsome : rows_of db user <> []) by (rewrite Hrows; discriminate).
    rewrite (calculate_user_statistics_some date db user now Hsome).
    destruct (breakdown_counts db user) as (_ & _ & Hget & _).
    eexists. split; [reflexivity|].
    intros operation. rewrite get_operation_statistics_count. cbv zeta in Hget.
    now rewrite Hget.
Qed.

(** *** Order of the rounded extremes and average *)












End SummaryFacts.

(** ** Reading, updating and deleting rows *)

Module TableFacts.

Import CalcUtils Builtins Statistics Spec Samples Terms MoreSamples.
Import CalcUtilsFacts StatisticsFacts RoutesFacts EngineFacts.

Local Open Scope Z_scope.

Lemma is_calc_of_iff (calc_uuid user : UUID) (c : Calculation) :
  is_calc_of calc_uuid user c = true <-> id c = calc_uuid /\ user_id c = user.
Proof. unfold is_calc_of. now rewrite andb_true_iff, !N.eqb_eq. Qed.

Lemma first_filter_None {A : Type} (p : A -> bool) (l : list A) :
  first (filter p l) = None <-> forall x, In x l -> p x = false.
Proof.
  unfold first. split.
  - intros H x Hx. destruct (p x) eqn:Hp; [|reflexivity].
    assert (Hin : In x (filter p l)) by (apply filter_In; now split).
    destruct (filter p l); [contradiction|discriminate].
  - intros H. now rewrite (filter_nil_iff p l H).
Qed.

(** With unique identifiers the query of the routes finds a row exactly when
    the table holds it under that identifier and owner. *)
Lemma first_selected (db : Session) (calc_uuid user : UUID) (c : Calculation) :
  NoDup (map id db) ->
  (first (filter (is_calc_of calc_uuid user) db) = Some c <->
   In c db /\ id c = calc_uuid /\ user_id c = user).
Proof.
  intros Hnd. split.
  - intros H. apply first_filter_Some in H as [Hin Hp].
    apply is_calc_of_iff in Hp. tauto.
  - intros (Hin & Hid & Huser).
    destruct (first (filter (is_calc_of calc_uuid user) db)) as [c'|] eqn:Hfirst.
    + apply first_filter_Some in Hfirst as [Hin' Hp'].
      apply is_calc_of_iff in Hp' as [Hid' _].
      f_equal. apply (unique_id db); auto. congruence.
    + rewrite first_filter_None in Hfirst. specialize (Hfirst c Hin).
      assert (Hp : is_calc_of calc_uuid user c = true) by now apply is_calc_of_iff.
      congruence.
Qed.

Lemma without_absent (calc_uuid : UUID) (db : Session) :
  (forall r, In r db -> id r <> calc_uuid) -> without calc_uuid db = db.
Proof.
  intros H. unfold without. induction db as [|d db IH]; simpl; [reflexivity|].
  destruct (N.eqb_spec (id d) calc_uuid) as [Heq|_]; simpl.
  - exfalso. apply (H d); [now left | exact Heq].
  - f_equal. apply IH. intros r Hr. apply H. now right.
Qed.

Lemma remove_first_without (db : Session) (calc_uuid user : UUID) (c : Calculation) :
  NoDup (map id db) -> In c db -> id c = calc_uuid -> user_id c = user ->
  remove_first (is_calc_of calc_uuid user) db = without calc_uuid db.
Proof.
  intros Hnd Hin Hid Huser. induction db as [|d db IH]; [contradiction|].
  simpl in Hnd. inversion Hnd as [|x l Hnotin Hnd']; subst x l.
  cbn [remove_first]. unfold without. cbn [filter]. fold (without calc_uuid db).
  destruct (is_calc_of calc_uuid user d) eqn:Hp.
  - apply is_calc_of_iff in Hp as [Hd _]. rewrite Hd, N.eqb_refl. cbn [negb].
    symmetry. apply without_absent. intros r Hr Heq. apply Hnotin.
    rewrite Hd, <- Heq. now apply in_map.
  - destruct Hin as [->|Hin].
    + assert (is_calc_of calc_uuid user c = true) by now apply is_calc_of_iff.
      congruence.
    + destruct (N.eqb_spec (id d) calc_uuid) as [Heq|_]; cbn [negb].
      * exfalso. apply Hnotin. rewrite Heq, <- Hid. now apply in_map.
      * f_equal. now apply IH.
Qed.

Lemma replace_first_map
    (db : Session) (calc_uuid user : UUID) (c c' : Calculation) :
  NoDup (map id db) -> In c db -> id c = calc_uuid -> user_id c = user ->
  replace_first (is_calc_of calc_uuid user) c' db
  = map (fun r => if (id r =? calc_uuid)%N then c' else r) db.
Proof.
  intros Hnd Hin Hid Huser. induction db as [|d db IH]; [contradiction|].
  simpl in Hnd. inversion Hnd as [|x l Hnotin Hnd']; subst x l.
  cbn [replace_first map].
  destruct (is_calc_of calc_uuid user d) eqn:Hp.
  - apply is_calc_of_iff in Hp as [Hd _]. rewrite Hd, N.eqb_refl. f_equal.
    symmetry. rewrite <- (map_id db) at 2. apply map_ext_in. intros r Hr.
    destruct (N.eqb_spec (id r) calc_uuid) as [Heq|_]; [|reflexivity].
    exfalso. apply Hnotin. rewrite Hd, <- Heq. now apply in_map.
  - destruct Hin as [->|Hin].
    + assert (is_calc_of calc_uuid user c = true) by now apply is_calc_of_iff.
      congruence.
    + destruct (N.eqb_spec (id d) calc_uuid) as [Heq|_].
      * exfalso. apply Hnotin. rewrite Heq, <- Hid. now apply in_map.
      * f_equal. now apply IH.
Qed.

(** X15.  The routes fail closed.  Whenever the update route of app/main.py,
    the updated PUT route or the delete route answers with anything but the
    row (for delete: success), the table is left as it was; and an
    identifier that does not parse is answered 400 "Invalid calculation id
    format." by all four routes. *)
Theorem routes_fail_closed
    (UUID_of : string -> option UUID) (db : Session) (caller : UUID) (calc_id : string)
    (upd : Schemas.CalculationUpdate) (now : datetime) :
  (forall answer db',
     Main.update_calculation UUID_of db caller calc_id upd now = (answer, db') ->
     (forall c, answer <> Returned c) -> db' = db) /\
  (forall answer db',
     Patched.update_calculation UUID_of db caller calc_id upd now = (answer, db') ->
     (forall c, answer <> Returned c) -> db' = db) /\
  (forall answer db',
     Main.delete_calculation UUID_of db caller calc_id = (answer, db') ->
     answer <> Returned tt -> db' = db) /\
  (UUID_of calc_id = None ->
   Main.get_calculation UUID_of db caller calc_id = HTTPException 400 "Invalid calculation id format." /\
   Main.update_calculation UUID_of db caller calc_id upd now = (BadId, db) /\
   Patched.update_calculation UUID_of db caller calc_id upd now = (BadId, db) /\
   Main.delete_calculation UUID_of db caller calc_id = (BadId, db)).
Proof.
  unfold Main.update_calculation, Patched.update_calculation,
    Main.delete_calculation, Main.get_calculation.
  destruct (UUID_of calc_id) as [calc_uuid|].
  2:{ conjs; try (intros answer db' H _; now injection H as _ <-); try discriminate.
      intros _. conjs; reflexivity. }
  destruct (first (filter (is_calc_of calc_uuid caller) db)) as [calc|].
  2:{ conjs; try (intros answer db' H _; now injection H as _ <-); discriminate. }
  conjs.
  - intros answer db' H Hno.
    destruct (match Schemas.inputs upd with
              | Some v => r <- get_result (with_inputs calc v);;
                          Ok (with_result (with_inputs calc v) r)
              | None => Ok calc
              end) as [c|e].
    + injection H as <- _. exfalso. now apply (Hno (with_updated_at c now)).
    + now injection H as _ <-.
  - intros answer db' H Hno. cbv zeta in H.
    destruct (compute_result _ _) as [r|e].
    + injection H as <- _. exfalso. now eapply Hno.
    + now injection H as _ <-.
  - intros answer db' H Hno. injection H as <- _. now contradiction Hno.
  - discriminate.
Qed.

Lemma routes_fail_closed_witness :
  digit_UUID "x1" = None /\
  Main.delete_calculation digit_UUID mixed_db 1%N "x1" = (BadId, mixed_db).
Proof.
  split; [reflexivity|].
  apply (proj2 (proj2 (proj2
    (routes_fail_closed digit_UUID mixed_db 1%N "x1" to_subtraction 50)))).
  reflexivity.
Defined.

(** X16.  Reading and browsing agree.  With unique identifiers and an
    identifier that parses, the read route returns a row exactly when the
    browse route lists it for the caller under that identifier, and answers
    404 exactly when the list holds no such row; the list holds the caller's
    rows only. *)
Theorem get_agrees_with_list
    (UUID_of : string -> option UUID) (db : Session) (caller : UUID)
    (calc_id : string) (calc_uuid : UUID) :
  NoDup (map id db) ->
  UUID_of calc_id = Some calc_uuid ->
  (forall c, Main.get_calculation UUID_of db caller calc_id = Returned c <->
             In c (Main.list_calculations db caller) /\ id c = calc_uuid) /\
  (Main.get_calculation UUID_of db caller calc_id = NotFound <->
   forall c, In c (Main.list_calculations db caller) -> id c <> calc_uuid) /\
  (forall c, In c (Main.list_calculations db caller) <-> In c db /\ user_id c = caller).
Proof.
  intros Hnd Hid.
  assert (Hlist : forall c, In c (Main.list_calculations db caller)
                            <-> In c db /\ user_id c = caller).
  { intros c. unfold Main.list_calculations. now rewrite filter_In, N.eqb_eq. }
  unfold Main.get_calculation. rewrite Hid. conjs.
  - intros c. rewrite Hlist.
    destruct (first (filter (is_calc_of calc_uuid caller) db)) as [c'|] eqn:Hfirst.
    + apply (first_selected db calc_uuid caller c' Hnd) in Hfirst as Hc'. split.
      * intros H. injection H as <-. tauto.
      * intros ((Hin & Huser) & Hc). f_equal.
        destruct Hc' as (Hin' & Hid' & _). apply (unique_id db); auto. congruence.
    + split; [discriminate|]. intros ((Hin & Huser) & Hc).
      rewrite first_filter_None in Hfirst. specialize (Hfirst c Hin).
      assert (is_calc_of calc_uuid caller c = true) by now apply is_calc_of_iff.
      congruence.
  - destruct (first (filter (is_calc_of calc_uuid caller) db)) as [c'|] eqn:Hfirst.
    + apply (first_selected db calc_uuid caller c' Hnd) in Hfirst as (Hin & Hc & Hu).
      split; [discriminate|]. intros H. exfalso. apply (H c'); [|exact Hc].
      apply Hlist. now split.
    + split; [|reflexivity]. intros _ c Hc Heq. apply Hlist in Hc as [Hin Hu].
      rewrite first_filter_None in Hfirst. specialize (Hfirst c Hin).
      assert (is_calc_of calc_uuid caller c = true) by now apply is_calc_of_iff.
      congruence.
  - exact Hlist.
Qed.

Lemma mixed_db_NoDup : NoDup (map id mixed_db).
Proof.
  simpl. repeat constructor; simpl; intros H;
    repeat (destruct H as [H|H]; [discriminate|]); exact H.
Qed.

Lemma get_agrees_with_list_witness :
  NoDup (map id mixed_db) /\ digit_UUID "1" = Some 1%N /\
  In first_row (Main.list_calculations mixed_db 1%N) /\
  Main.get_calculation digit_UUID mixed_db 1%N "1" = Returned first_row.
Proof.
  split; [exact mixed_db_NoDup|]. split; [reflexivity|].
  assert (Hin : In first_row (Main.list_calculations mixed_db 1%N)) by (left; reflexivity).
  split; [exact Hin|].
  apply (proj1 (get_agrees_with_list digit_UUID mixed_db 1%N "1" 1%N
                  mixed_db_NoDup eq_refl)).
  split; [exact Hin | reflexivity].
Defined.

(** X17.  Deleting removes one row and nothing else.  With unique
    identifiers, deleting a row of the caller succeeds and leaves the table
    without that row, the other rows in their order; the table has one row
    fewer, identifiers stay unique, and afterwards reading or deleting the
    same identifier answers 404. *)
Theorem delete_removes_the_row
    (UUID_of : string -> option UUID) (db : Session) (caller : UUID)
    (calc_id : string) (c : Calculation) :
  NoDup (map id db) ->
  UUID_of calc_id = Some (id c) ->
  In c db -> user_id c = caller ->
  let db' := without (id c) db in
  Main.delete_calculation UUID_of db caller calc_id = (Returned tt, db') /\
  Permutation db (c :: db') /\
  count db' = count db - 1 /\
  NoDup (map id db') /\
  (forall r, In r db' <-> In r db /\ r <> c) /\
  Main.get_calculation UUID_of db' caller calc_id = NotFound /\
  Main.delete_calculation UUID_of db' caller calc_id = (NotFound, db').
Proof.
  intros Hnd Hid Hin Huser db'.
  assert (Hfirst : first (filter (is_calc_of (id c) caller) db) = Some c).
  { apply first_selected; auto. }
  assert (Hmem : forall r, In r db' <-> In r db /\ r <> c).
  { intros r. unfold db', without. rewrite filter_In, negb_true_iff, N.eqb_neq.
    split; intros [Hr Hne]; split; auto.
    - intros ->. now apply Hne.
    - intros Heq. apply Hne. now apply (unique_id db). }
  assert (Hperm : Permutation db (c :: db')).
  { unfold db'. clear Hfirst Hmem. induction db as [|d db IH]; [contradiction|].
    simpl in Hnd. inversion Hnd as [|x l Hnotin Hnd']; subst x l.
    unfold without. cbn [filter]. fold (without (id c) db).
    destruct Hin as [->|Hin].
    - rewrite N.eqb_refl. cbn [negb]. rewrite without_absent; [apply Permutation_refl|].
      intros r Hr Heq. apply Hnotin. rewrite <- Heq. now apply in_map.
    - destruct (N.eqb_spec (id d) (id c)) as [Heq|_]; cbn [negb].
      + exfalso. apply Hnotin. rewrite Heq. now apply in_map.
      + eapply perm_trans; [apply perm_skip, IH; assumption | apply perm_swap]. }
  assert (Habs : first (filter (is_calc_of (id c) caller) db') = None).
  { unfold db'. now rewrite absent_row_not_selected. }
  unfold Main.delete_calculation, Main.get_calculation.
  rewrite Hid, Hfirst, Habs. conjs.
  - f_equal. now apply (remove_first_without db (id c) caller c).
  - exact Hperm.
  - unfold count. rewrite (Permutation_length Hperm). cbn [List.length]. lia.
  - apply (Permutation_map id) in Hperm. apply (Permutation_NoDup Hperm) in Hnd.
    now inversion Hnd.
  - exact Hmem.
  - reflexivity.
  - reflexivity.
Qed.

Lemma delete_removes_the_row_witness :
  NoDup (map id mixed_db) /\ digit_UUID "1" = Some (id first_row) /\
  In first_row mixed_db /\ user_id first_row = 1%N /\
  Main.delete_calculation digit_UUID mixed_db 1%N "1"
  = (Returned tt, without 1%N mixed_db) /\
  count (without 1%N mixed_db) = count mixed_db - 1.
Proof.
  assert (Hin : In first_row mixed_db) by (left; reflexivity).
  split; [exact mixed_db_NoDup|]. split; [reflexivity|]. split; [exact Hin|].
  split; [reflexivity|].
  destruct (delete_removes_the_row digit_UUID mixed_db 1%N "1" first_row
              mixed_db_NoDup eq_refl Hin eq_refl) as (Hdel & _ & Hcount & _).
  split; [exact Hdel | exact Hcount].
Defined.

(** X18.  The updated PUT route rewrites one row in place.  With unique
    identifiers, when the new tag and inputs compute, the answer is a row with
    the identifier, owner and creation time of the old one, the table holds
    it at the old row's place with every other row untouched, the identifiers
    of the table are as before, and reading the identifier afterwards returns
    the row just written. *)
Theorem patched_update_in_place
    (UUID_of : string -> option UUID) (db : Session) (caller : UUID)
    (calc_id : string) (calc : Calculation) (upd : Schemas.CalculationUpdate)
    (now : datetime) (r : Qc) :
  NoDup (map id db) ->
  UUID_of calc_id = Some (id calc) ->
  In calc db -> user_id calc = caller ->
  compute_result (Patched.or_type (Schemas.type upd) (type calc))
                 (Patched.or_inputs (Schemas.inputs upd) (inputs calc)) = Ok r ->
  exists calc' : Calculation,
    let db' := map (fun x => if (id x =? id calc)%N then calc' else x) db in
    Patched.update_calculation UUID_of db caller calc_id upd now = (Returned calc', db') /\
    id calc' = id calc /\ user_id calc' = caller /\
    created_at calc' = created_at calc /\ result calc' = r /\ updated_at calc' = now /\
    map id db' = map id db /\
    (forall x, In x db -> id x <> id calc -> In x db') /\
    Main.get_calculation UUID_of db' caller calc_id = Returned calc'.
Proof.
  intros Hnd Hid Hin Huser Hr.
  assert (Hfirst : first (filter (is_calc_of (id calc) caller) db) = Some calc).
  { apply first_selected; auto. }
  unfold Patched.update_calculation. rewrite Hid, Hfirst. cbv zeta. rewrite Hr.
  eexists. cbv zeta.
  split; [f_equal; now apply (replace_first_map db (id calc) caller calc)|].
  cbn [id user_id created_at result updated_at with_updated_at with_result
       with_inputs with_type].
  set (calc' := with_updated_at _ _).
  assert (Hids : map id (map (fun x => if (id x =? id calc)%N then calc' else x) db)
                 = map id db).
  { rewrite map_map. apply map_ext_in. intros x _.
    destruct (N.eqb_spec (id x) (id calc)) as [->|_]; reflexivity. }
  conjs; try reflexivity; try assumption.
  - intros x Hx Hne. apply in_map_iff. exists x. split; [|exact Hx].
    destruct (N.eqb_spec (id x) (id calc)); [contradiction|reflexivity].
  - unfold Main.get_calculation. rewrite Hid.
    assert (Hsel : first (filter (is_calc_of (id calc) caller)
                            (map (fun x => if (id x =? id calc)%N then calc' else x) db))
                   = Some calc').
    { apply first_selected.
      - now rewrite Hids.
      - split; [|split; [reflexivity | exact Huser]].
        apply in_map_iff. exists calc. split; [now rewrite N.eqb_refl | exact Hin]. }
    now rewrite Hsel.
Qed.

Lemma patched_update_in_place_witness :
  NoDup (map id mixed_db) /\ digit_UUID "1" = Some (id first_row) /\
  In first_row mixed_db /\ user_id first_row = 1%N /\
  compute_result (Patched.or_type (Schemas.type to_division) (type first_row))
                 (Patched.or_inputs (Schemas.inputs to_division) (inputs first_row))
  = Ok (num 2) /\
  exists calc' : Calculation,
    fst (Patched.update_calculation digit_UUID mixed_db 1%N "1" to_division 50)
    = Returned calc' /\
    result calc' = num 2.
Proof.
  assert (Hin : In first_row mixed_db) by (left; reflexivity).
  assert (Hr : compute_result
                 (Patched.or_type (Schemas.type to_division) (type first_row))
                 (Patched.or_inputs (Schemas.inputs to_division) (inputs first_row))
               = Ok (num 2)) by eval_ok.
  split; [exact mixed_db_NoDup|]. split; [reflexivity|]. split; [exact Hin|].
  split; [reflexivity|]. split; [exact Hr|].
  destruct (patched_update_in_place digit_UUID mixed_db 1%N "1" first_row to_division
              50 (num 2) mixed_db_NoDup eq_refl Hin eq_refl Hr)
    as (calc' & Hupd & _ & _ & _ & Hres & _).
  exists calc'. rewrite Hupd. split; [reflexivity | exact Hres].
Defined.

Lemma Forall_replace_first
    (P : Calculation -> Prop) (p : Calculation -> bool) (c' : Calculation) (db : Session) :
  Forall P db -> P c' -> Forall P (replace_first p c' db).
Proof.
  induction 1 as [|d db Hd Hdb IH]; intros Hc'; simpl; [constructor|].
  destruct (p d); constructor; auto.
Qed.

Lemma Forall_remove_first
    (P : Calculation -> Prop) (p : Calculation -> bool) (db : Session) :
  Forall P db -> Forall P (remove_first p db).
Proof.
  induction 1 as [|d db Hd Hdb IH]; simpl; [constructor|].
  destruct (p d); [assumption | now constructor].
Qed.

(** X19.  The updated PUT route and the delete route keep the table
    consistent: if every row holds the result that its tag and inputs
    compute, then so does every row after the route has run, whatever it
    answered, and a row it returns does too. *)
Theorem routes_keep_results_consistent
    (UUID_of : string -> option UUID) (db : Session) (caller : UUID) (calc_id : string)
    (upd : Schemas.CalculationUpdate) (now : datetime) :
  Forall consistent db ->
  Forall consistent (snd (Patched.update_calculation UUID_of db caller calc_id upd now)) /\
  (forall c, fst (Patched.update_calculation UUID_of db caller calc_id upd now)
             = Returned c -> consistent c) /\
  Forall consistent (snd (Main.delete_calculation UUID_of db caller calc_id)).
Proof.
  intros Hall. unfold Patched.update_calculation, Main.delete_calculation.
  destruct (UUID_of calc_id) as [calc_uuid|]; [|conjs; [assumption|discriminate|assumption]].
  destruct (first (filter (is_calc_of calc_uuid caller) db)) as [calc|];
    [|conjs; [assumption|discriminate|assumption]].
  cbv zeta. destruct (compute_result _ _) as [r|e] eqn:Hr; cbn [fst snd].
  - assert (Hc : consistent
                   (with_updated_at
                      (with_result
                         (with_inputs
                            (with_type calc (Patched.or_type (Schemas.type upd) (type calc)))
                            (Patched.or_inputs (Schemas.inputs upd) (inputs calc))) r) now))
      by exact Hr.
    conjs.
    + now apply Forall_replace_first.
    + intros c H. injection H as <-. exact Hc.
    + now apply Forall_remove_first.
  - conjs; [assumption | discriminate | now apply Forall_remove_first].
Qed.

Lemma routes_keep_results_consistent_witness :
  Forall consistent [addition_row] /\
  Forall consistent
    (snd (Patched.update_calculation digit_UUID [addition_row] 1%N "1" to_subtraction 99)).
Proof.
  assert (H : Forall consistent [addition_row]).
  { constructor; [|constructor]. unfold consistent. eval_ok. }
  split; [exact H|].
  apply (proj1 (routes_keep_results_consistent digit_UUID [addition_row] 1%N "1"
                  to_subtraction 99 H)).
Defined.

(** X20.  The list route of the patched excerpt shows the rows that the
    browse route of app/main.py shows, which are the caller's rows, ordered
    newest first. *)
Theorem patched_list_is_sorted_browse (db : Session) (caller : UUID) :
  Permutation (Patched.list_calculations db caller) (Main.list_calculations db caller) /\
  StronglySorted newest_first (Patched.list_calculations db caller) /\
  (forall c, In c (Patched.list_calculations db caller)
             <-> In c db /\ user_id c = caller).
Proof.
  unfold Patched.list_calculations, Main.list_calculations. conjs.
  - apply order_by_created_at_desc_perm.
  - apply order_by_created_at_desc_newest_first.
  - intros c. rewrite <- (N.eqb_eq (user_id c) caller).
    rewrite <- (filter_In (fun c => (user_id c =? caller)%N)).
    split; apply Permutation_in;
      [|apply Permutation_sym]; apply order_by_created_at_desc_perm.
Qed.

(** *** The update schema *)

Lemma CalculationType_cases (t : string) :
  Schemas.CalculationType t = true ->
  t = "addition" \/ t = "subtraction" \/ t = "multiplication" \/ t = "division".
Proof.
  unfold Schemas.CalculationType. rewrite !orb_true_iff, !String.eqb_eq. tauto.
Qed.

Lemma CalculationType_recognized (t : string) :
  Schemas.CalculationType t = true -> recognized t /\ Statistics.truthy t = true.
Proof.
  intros H. apply CalculationType_cases in H as [-> | [-> | [-> | ->]]];
    (split; [unfold recognized, tag_is; simpl; tauto | reflexivity]).
Qed.

Lemma CalculationType_division (t : string) :
  Schemas.CalculationType t = true -> tag_is t "division" -> t = "division".
Proof.
  intros H Htag. apply CalculationType_cases in H as [-> | [-> | [-> | ->]]];
    try reflexivity; discriminate.
Qed.

Lemma zero_divisor_skipn (v : list Qc) :
  zero_divisor v <-> existsb is_zero (skipn 1 v) = true.
Proof.
  destruct v as [|x0 rest].
  - split; [|discriminate]. intros (i & Hi & Hnth). destruct i; [lia|discriminate].
  - apply zero_divisor_existsb.
Qed.

(** What [valid] says, field by field. *)
Lemma valid_fields (u : Schemas.CalculationUpdate) :
  Schemas.valid u = true ->
  (forall t, Schemas.type u = Some t -> Schemas.CalculationType t = true) /\
  (forall v, Schemas.inputs u = Some v -> (2 <= List.length v)%nat) /\
  (forall v, Schemas.type u = Some "division" -> Schemas.inputs u = Some v ->
             ~ zero_divisor v).
Proof.
  unfold Schemas.valid. intros H. apply andb_prop in H as [Ht Hv]. conjs.
  - intros t Heq. now rewrite Heq in Ht.
  - intros v Heq. rewrite Heq in Hv. apply andb_prop in Hv as [Hlen _].
    now apply Nat.leb_le.
  - intros v Htype Heq. rewrite Heq, Htype in Hv. apply andb_prop in Hv as [_ Hz].
    rewrite zero_divisor_skipn.
    change (String.eqb "division" "division") with true in Hz.
    rewrite andb_true_l in Hz. apply negb_true_iff in Hz. rewrite Hz. discriminate.
Qed.

(** X21.  What the update schema lets through computes: an update that
    passes the schema and carries both a tag and inputs has a tag the engine
    knows and inputs on which [compute_result] returns a number.  The
    zero-divisor check only looks at a tag carried by the update itself: an
    update of the inputs alone passes exactly when it has at least two
    inputs, zero divisor or not. *)
Theorem valid_update_computes (u : Schemas.CalculationUpdate) :
  (Schemas.valid u = true ->
   forall t v, Schemas.type u = Some t -> Schemas.inputs u = Some v ->
               recognized t /\ exists r, compute_result t v = Ok r) /\
  (forall v, Schemas.valid {| Schemas.type := None; Schemas.inputs := Some v |} = true
             <-> (2 <= List.length v)%nat).
Proof.
  split.
  - intros Hvalid t v Ht Hv.
    destruct (valid_fields u Hvalid) as (Htype & Hlen & Hdiv).
    destruct (CalculationType_recognized t (Htype t Ht)) as [Hrec _].
    split; [exact Hrec|].
    apply (proj1 (compute_result_outcome t v)).
    split; [now apply Hlen|]. split; [exact Hrec|].
    intros Htag. apply (CalculationType_division t (Htype t Ht)) in Htag. subst t.
    now apply Hdiv.
  - intros v. unfold Schemas.valid. cbn [Schemas.type Schemas.inputs].
    rewrite andb_true_l, andb_true_r. apply Nat.leb_le.
Qed.

Lemma valid_update_computes_witness :
  Schemas.valid to_division = true /\
  Schemas.valid zero_inputs = true /\
  exists r, compute_result "division" [num 6; num 3] = Ok r.
Proof.
  split; [reflexivity|]. split; [reflexivity|].
  apply (proj1 (valid_update_computes to_division) eq_refl "division" [num 6; num 3]
           eq_refl eq_refl).
Defined.

(** X22.  On a stored row with a known tag and at least two inputs, an
    update that passes the schema can make the updated PUT route fail in one
    way only: when the tag to store is division and an input to store after
    the first is zero, the answer is 400 "Cannot divide by zero." and the
    table is unchanged; in every other case the route returns the row.  An
    update that carries both a tag and inputs always succeeds. *)
Theorem patched_update_valid_outcomes
    (UUID_of : string -> option UUID) (db : Session) (caller : UUID)
    (calc_id : string) (calc_uuid : UUID) (calc : Calculation)
    (upd : Schemas.CalculationUpdate) (now : datetime) :
  UUID_of calc_id = Some calc_uuid ->
  first (filter (is_calc_of calc_uuid caller) db) = Some calc ->
  well_formed calc ->
  Schemas.valid upd = true ->
  let new_type := Patched.or_type (Schemas.type upd) (type calc) in
  let new_inputs := Patched.or_inputs (Schemas.inputs upd) (inputs calc) in
  let answer := Patched.update_calculation UUID_of db caller calc_id upd now in
  (tag_is new_type "division" /\ zero_divisor new_inputs ->
   answer = (HTTPException 400 "Cannot divide by zero.", db)) /\
  (~ (tag_is new_type "division" /\ zero_divisor new_inputs) ->
   exists calc', fst answer = Returned calc' /\ consistent calc') /\
  (Schemas.type upd <> None -> Schemas.inputs upd <> None ->
   exists calc', fst answer = Returned calc' /\ consistent calc').
Proof.
  intros Hid Hfirst [Hrec Hlen] Hvalid new_type new_inputs answer.
  destruct (valid_fields upd Hvalid) as (Htype & Hvlen & Hdiv).
  assert (Hnt : recognized new_type).
  { unfold new_type, Patched.or_type. destruct (Schemas.type upd) as [t|]; [|exact Hrec].
    destruct (CalculationType_recognized t (Htype t eq_refl)) as [Ht ->]. exact Ht. }
  assert (Hni : (2 <= List.length new_inputs)%nat).
  { unfold new_inputs, Patched.or_inputs. destruct (Schemas.inputs upd) as [v|];
      [|exact Hlen].
    specialize (Hvlen v eq_refl). destruct v as [|x xs]; [simpl in Hvlen; lia|exact Hvlen]. }
  assert (Hanswer : answer
                    = match compute_result new_type new_inputs with
                      | Ok r =>
                          let c := with_updated_at
                                     (with_result
                                        (with_inputs (with_type calc new_type) new_inputs) r)
                                     now in
                          (Returned c, replace_first (is_calc_of calc_uuid caller) c db)
                      | Err e => (HTTPException 400 (Patched.str e), db)
                      end).
  { unfold answer, Patched.update_calculation. now rewrite Hid, Hfirst. }
  assert (Hgood : ~ (tag_is new_type "division" /\ zero_divisor new_inputs) ->
                  exists calc', fst answer = Returned calc' /\ consistent calc').
  { intros Hno.
    destruct (proj2 (proj1 (compute_result_outcome new_type new_inputs))) as (r & Hr).
    { split; [exact Hni|]. split; [exact Hnt|]. intros Htag Hz. apply Hno. now split. }
    rewrite Hanswer, Hr. eexists. split; [reflexivity|]. exact Hr. }
  conjs.
  - intros [Htag Hz]. rewrite Hanswer.
    destruct (two_inputs new_inputs Hni) as (x0 & x1 & rest & Heq). rewrite Heq in *.
    rewrite (compute_result_division _ _ _ _ Htag).
    rewrite zero_divisor_existsb in Hz. now rewrite (div_loop_err _ _ Hz).
  - exact Hgood.
  - intros Ht Hv. apply Hgood. intros [Htag Hz].
    destruct (Schemas.type upd) as [t|] eqn:Htu; [|contradiction].
    destruct (Schemas.inputs upd) as [v|] eqn:Hvu; [|contradiction].
    assert (Hnew_t : new_type = t).
    { unfold new_type, Patched.or_type.
      now destruct (CalculationType_recognized t (Htype t eq_refl)) as [_ ->]. }
    assert (Hnew_v : new_inputs = v).
    { unfold new_inputs, Patched.or_inputs. specialize (Hvlen v eq_refl).
      destruct v; [simpl in Hvlen; lia|reflexivity]. }
    rewrite Hnew_t in Htag. rewrite Hnew_v in Hz.
    apply (CalculationType_division t (Htype t eq_refl)) in Htag. subst t.
    now apply (Hdiv v).
Qed.

Lemma patched_update_valid_outcomes_witness :
  digit_UUID "4" = Some 4%N /\
  first (filter (is_calc_of 4%N 1%N) mixed_db) = Some division_row /\
  well_formed division_row /\
  Schemas.valid zero_inputs = true /\
  Patched.update_calculation digit_UUID mixed_db 1%N "4" zero_inputs 50
  = (HTTPException 400 "Cannot divide by zero.", mixed_db).
Proof.
  assert (Hwf : well_formed division_row).
  { split; [right; right; right; reflexivity | simpl; lia]. }
  split; [reflexivity|]. split; [reflexivity|]. split; [exact Hwf|].
  split; [reflexivity|].
  apply (proj1 (patched_update_valid_outcomes digit_UUID mixed_db 1%N "4" 4%N
                  division_row zero_inputs 50 eq_refl eq_refl Hwf eq_refl)).
  split; [reflexivity|]. rewrite zero_divisor_skipn. reflexivity.
Defined.

(** *** The history route *)


End TableFacts.
